(** * PersonaEditor: the editing engine behind the Persona form

    A shallow embedding of [web/src/app/admin/personas/PersonaEditor.tsx].

    The component is a React function component around a Formik form.  What is
    modelled here is its state and its handlers:

    - the Formik [values] (the draft), the two [useState] cells [finalPrompt]
      and [finalPromptError], the pop-up cell of [usePopup] and Formik's
      [isSubmitting] flag make up the editor state;
    - every handler ([onSubmit], the [onChange] and [onClick] callbacks, the
      [.test] callback of the validation schema, [triggerFinalPromptUpdate])
      is a computation in a state monad over that state, extended with the
      log of the calls made to the outside ([buildFinalPrompt],
      [createPersona], [updatePersona], [router.push]);
    - [await] is sequencing: a handler is run from the moment it is invoked to
      the moment its promise settles, the answers of the collaborators being
      given by the environment.

    JavaScript values are modelled only as far as the handlers look at them:
    truthiness, [||], [===] on strings and numbers, [indexOf], [splice]. *)

From Stdlib Require Import ZArith QArith Qround String Ascii List Bool Lia DecimalString.
From Stdlib Require Import Permutation.
From ExtLib Require Import Structures.Monad Data.Monads.StateMonad.
Import ListNotations.
Import MonadNotation.

Local Open Scope monad_scope.
Local Open Scope string_scope.
Local Open Scope list_scope.
Local Open Scope Z_scope.

(** ** JavaScript values *)

Module Js.

(** A JavaScript number: an IEEE double is NaN, an infinity or a finite
    value; every finite double is a rational, and the comparisons the editor
    performs ([=== 0], [<= 20], truthiness) are exact on it. *)
Inductive Number : Type :=
| NaN
| Infinity (negative : bool)
| Finite (q : Q).

Definition of_Z (z : Z) : Number := Finite (inject_Z z).

(** [ToBoolean] on a number: [0] and [NaN] are falsy. *)
Definition number_truthy (n : Number) : bool :=
  match n with
  | NaN => false
  | Infinity _ => true
  | Finite q => negb (Qeq_bool q 0)
  end.

(** [a <= b] on numbers; any comparison with [NaN] is false. *)
Definition number_le (a b : Number) : bool :=
  match a, b with
  | NaN, _ | _, NaN => false
  | Infinity true, _ => true
  | _, Infinity false => true
  | Infinity false, _ => false
  | _, Infinity true => false
  | Finite p, Finite q => Qle_bool p q
  end.

(** [a === b] on numbers. *)
Definition number_strict_eq (a b : Number) : bool :=
  match a, b with
  | NaN, _ | _, NaN => false
  | Infinity s, Infinity t => Bool.eqb s t
  | Finite p, Finite q => Qeq_bool p q
  | _, _ => false
  end.

(** [ToBoolean] on a string: only the empty string is falsy. *)
Definition string_truthy (s : string) : bool :=
  negb (s =? "")%string.

(** The values a form field of the editor holds: [null], a number or a
    string. *)
Inductive Value : Type :=
| Null
| Num (n : Number)
| Str (s : string).

Definition truthy (v : Value) : bool :=
  match v with
  | Null => false
  | Num n => number_truthy n
  | Str s => string_truthy s
  end.

(** [a || b]. *)
Definition or (a b : Value) : Value :=
  if truthy a then a else b.

(** [a ?? b], the operator the specification writes for the chunk count. *)
Definition nullish (a b : Value) : Value :=
  match a with
  | Null => b
  | _ => a
  end.

(** *** Characters and digit strings *)

(** The character class [[0-9]]. *)
Definition is_digit (c : ascii) : bool :=
  ((48 <=? N_of_ascii c) && (N_of_ascii c <=? 57))%N.

(** [/^[0-9]+$/.test(value)]: without the [m] flag the anchors are the two
    ends of the input, so the whole input is one or more digits. *)
Definition test_digits (value : string) : bool :=
  match list_ascii_of_string value with
  | [] => false
  | c :: cs => is_digit c && forallb is_digit cs
  end.

(** *** Reading a decimal literal

    [StringToNumber] restricted to plain decimal literals, an optional sign
    followed by [digits], [digits.], [digits.digits] or [.digits]:
    the value is exact (the rounding to the nearest double is left out).
    Outside that fragment (exponents, other radices, [Infinity], white
    space, and the strings that are no number at all) the function gives no
    answer. *)

Definition digit_value (c : ascii) : N := (N_of_ascii c - 48)%N.

Fixpoint digits_value (acc : N) (cs : list ascii) : option N :=
  match cs with
  | [] => Some acc
  | c :: cs' =>
      if is_digit c then digits_value (10 * acc + digit_value c)%N cs'
      else None
  end.

(** Splits at the first ["."], if there is one. *)
Fixpoint split_point (cs : list ascii) : list ascii * option (list ascii) :=
  match cs with
  | [] => ([], None)
  | c :: cs' =>
      if Ascii.eqb c "." then ([], Some cs')
      else let '(int, frac) := split_point cs' in (c :: int, frac)
  end.

Definition unsigned_decimal (cs : list ascii) : option Q :=
  match split_point cs with
  | ([], None) => None
  | (int, None) =>
      match digits_value 0 int with
      | Some i => Some (inject_Z (Z.of_N i))
      | None => None
      end
  | ([], Some []) => None
  | (int, Some frac) =>
      match digits_value 0 int, digits_value 0 frac with
      | Some i, Some f =>
          Some (inject_Z (Z.of_N i)
                + inject_Z (Z.of_N f) / inject_Z (10 ^ Z.of_nat (length frac)))%Q
      | _, _ => None
      end
  end.

Definition decimal_literal (s : string) : option Number :=
  match list_ascii_of_string s with
  | [] => None
  | c :: cs =>
      if Ascii.eqb c "-" then
        option_map (fun q => Finite (- q)%Q) (unsigned_decimal cs)
      else if Ascii.eqb c "+" then
        option_map Finite (unsigned_decimal cs)
      else
        option_map Finite (unsigned_decimal (c :: cs))
  end.

(** A number is an integer when it is finite and equal to its floor. *)
Definition is_integer (n : Number) : bool :=
  match n with
  | Finite q => Qeq_bool (inject_Z (Qfloor q)) q
  | _ => false
  end.

Definition is_negative (n : Number) : bool :=
  match n with
  | NaN => false
  | Infinity negative => negative
  | Finite q => negb (Qle_bool 0 q)
  end.

End Js.

(** ** The data the editor works on *)

(** [DocumentSet] of [@/lib/types] and [Prompt], [StarterMessage], [Persona]
    of [./interfaces], with the fields this component reads. *)

Module DocumentSet.
Record t : Type := { id : Z; name : string }.
End DocumentSet.

Module Prompt.
Record t : Type :=
  { id : Z;
    system_prompt : string;
    task_prompt : string;
    include_citations : bool }.
End Prompt.

Module StarterMessage.
Record t : Type :=
  { name : string;
    description : string;
    message : string }.
End StarterMessage.

Module Persona.
Record t : Type :=
  { id : Z;
    name : string;
    description : string;
    num_chunks : option Js.Number;
    prompts : list Prompt.t;
    document_sets : list DocumentSet.t;
    llm_relevance_filter : bool;
    llm_model_version_override : option string;
    starter_messages : option (list StarterMessage.t) }.
End Persona.

(** An element of the [starter_messages] array as it exists at run time: the
    array is typed [StarterMessage[]], but [ArrayHelpers.push] takes [any],
    and the editor pushes a string. *)
Inductive StarterEntry : Type :=
| EntryObject (m : StarterMessage.t)
| EntryString (s : string).

(** Property access [entry.name], [entry.description], [entry.message]:
    [undefined] on a string, which has no such property. *)
Definition entry_name (e : StarterEntry) : option string :=
  match e with
  | EntryObject m => Some (StarterMessage.name m)
  | EntryString _ => None
  end.

Definition entry_description (e : StarterEntry) : option string :=
  match e with
  | EntryObject m => Some (StarterMessage.description m)
  | EntryString _ => None
  end.

Definition entry_message (e : StarterEntry) : option string :=
  match e with
  | EntryObject m => Some (StarterMessage.message m)
  | EntryString _ => None
  end.

(** The Formik [values]: the draft. *)
Record Values : Type :=
  { name : string;
    description : string;
    system_prompt : string;
    task_prompt : string;
    disable_retrieval : bool;
    document_set_ids : list Z;
    num_chunks : Js.Value;
    include_citations : bool;
    llm_relevance_filter : bool;
    llm_model_version_override : option string;
    starter_messages : option (list StarterEntry) }.

(** [{ ...values, num_chunks: v }] and the other single-field updates that
    [setFieldValue] and the array helpers perform. *)
Definition with_num_chunks (v : Js.Value) (values : Values) : Values :=
  {| name := name values;
     description := description values;
     system_prompt := system_prompt values;
     task_prompt := task_prompt values;
     disable_retrieval := disable_retrieval values;
     document_set_ids := document_set_ids values;
     num_chunks := v;
     include_citations := include_citations values;
     llm_relevance_filter := llm_relevance_filter values;
     llm_model_version_override := llm_model_version_override values;
     starter_messages := starter_messages values |}.

Definition with_document_set_ids (ids : list Z) (values : Values) : Values :=
  {| name := name values;
     description := description values;
     system_prompt := system_prompt values;
     task_prompt := task_prompt values;
     disable_retrieval := disable_retrieval values;
     document_set_ids := ids;
     num_chunks := num_chunks values;
     include_citations := include_citations values;
     llm_relevance_filter := llm_relevance_filter values;
     llm_model_version_override := llm_model_version_override values;
     starter_messages := starter_messages values |}.

Definition with_starter_messages (ms : option (list StarterEntry))
    (values : Values) : Values :=
  {| name := name values;
     description := description values;
     system_prompt := system_prompt values;
     task_prompt := task_prompt values;
     disable_retrieval := disable_retrieval values;
     document_set_ids := document_set_ids values;
     num_chunks := num_chunks values;
     include_citations := include_citations values;
     llm_relevance_filter := llm_relevance_filter values;
     llm_model_version_override := llm_model_version_override values;
     starter_messages := ms |}.

(** A fetch [Response] as the editor observes it: the [ok] flag, the body
    read with [text()], and the [final_prompt_template] member of the body
    read with [json()]. *)
Record Response : Type :=
  { ok : bool;
    text : string;
    final_prompt_template : option string }.

(** The argument of [setPopup]. *)
Record PopupSpec : Type :=
  { type : string;
    message : string }.

(** The arguments of [updatePersona] and [createPersona]. *)
Record PersonaUpdateRequest : Type :=
  { id : Z;
    existingPromptId : option Z;
    update_fields : Values }.

Record PersonaCreationRequest : Type :=
  { creation_fields : Values }.

(** The calls the editor makes to its collaborators. *)
Inductive Call : Type :=
| BuildFinalPrompt (systemPrompt taskPrompt : string) (retrievalDisabled : bool)
| UpdatePersona (request : PersonaUpdateRequest)
| CreatePersona (request : PersonaCreationRequest)
| RouterPush (url : string).

(** The state of one editor instance, and the log of its calls, oldest
    first. *)
Record Editor : Type :=
  { values : Values;
    finalPrompt : option string;
    finalPromptError : string;
    popup : option PopupSpec;
    isSubmitting : bool;
    calls : list Call }.

(** The props of the component and the answers of its collaborators. *)
Record Props : Type :=
  { existingPersona : option Persona.t;
    documentSets : list DocumentSet.t;
    llmOverrideOptions : list string;
    defaultLLM : string }.

Record Collaborators : Type :=
  { buildFinalPrompt : string -> string -> bool -> Response;
    updatePersona : PersonaUpdateRequest -> Response * option Response;
    createPersona : PersonaCreationRequest -> Response * option Response;
    Date_now : Z }.

(** ** The handler monad

    A handler runs against the editor state; [runState h e] gives its result
    and the state it leaves. *)

Definition Handler : Type -> Type := state Editor.

Definition read {A : Type} (f : Editor -> A) : Handler A :=
  mkState (fun e => (f e, e)).

Definition update (f : Editor -> Editor) : Handler unit :=
  mkState (fun e => (tt, f e)).

(** [setFieldValue] and the array helpers replace the draft. *)
Definition setValues (f : Values -> Values) : Handler unit :=
  update (fun e =>
    {| values := f (values e);
       finalPrompt := finalPrompt e;
       finalPromptError := finalPromptError e;
       popup := popup e;
       isSubmitting := isSubmitting e;
       calls := calls e |}).

Definition setFinalPrompt (v : option string) : Handler unit :=
  update (fun e =>
    {| values := values e;
       finalPrompt := v;
       finalPromptError := finalPromptError e;
       popup := popup e;
       isSubmitting := isSubmitting e;
       calls := calls e |}).

Definition setFinalPromptError (v : string) : Handler unit :=
  update (fun e =>
    {| values := values e;
       finalPrompt := finalPrompt e;
       finalPromptError := v;
       popup := popup e;
       isSubmitting := isSubmitting e;
       calls := calls e |}).

Definition setPopup (p : PopupSpec) : Handler unit :=
  update (fun e =>
    {| values := values e;
       finalPrompt := finalPrompt e;
       finalPromptError := finalPromptError e;
       popup := Some p;
       isSubmitting := isSubmitting e;
       calls := calls e |}).

Definition setSubmitting (b : bool) : Handler unit :=
  update (fun e =>
    {| values := values e;
       finalPrompt := finalPrompt e;
       finalPromptError := finalPromptError e;
       popup := popup e;
       isSubmitting := b;
       calls := calls e |}).

(** Records a call to the outside at the end of the log. *)
Definition call (c : Call) : Handler unit :=
  update (fun e =>
    {| values := values e;
       finalPrompt := finalPrompt e;
       finalPromptError := finalPromptError e;
       popup := popup e;
       isSubmitting := isSubmitting e;
       calls := calls e ++ [c] |}).

(** ** Arrays *)

(** [array.indexOf(x)] on an array of identifiers: the first position holding
    [x], or [-1]. *)
Fixpoint indexOf_from (array : list Z) (x : Z) (i : Z) : Z :=
  match array with
  | [] => -1
  | y :: rest => if (y =? x)%Z then i else indexOf_from rest x (i + 1)
  end.

Definition indexOf (array : list Z) (x : Z) : Z := indexOf_from array x 0.

Fixpoint remove_nth {A : Type} (n : nat) (l : list A) : list A :=
  match l, n with
  | [], _ => []
  | _ :: rest, O => rest
  | y :: rest, S k => y :: remove_nth k rest
  end.

(** [copy.splice(index, 1)]: a negative [index] counts from the end, one past
    the end removes nothing. *)
Definition splice_one {A : Type} (index : Z) (l : list A) : list A :=
  let len := Z.of_nat (length l) in
  let start := if index <? 0 then Z.max (len + index) 0 else Z.min index len in
  remove_nth (Z.to_nat start) l.

(** Formik's [arrayHelpers.push(value)] and [arrayHelpers.remove(index)] on a
    field that holds an array or [null]: both work on a copy, an absent array
    counting as empty. *)
Definition arrayHelpers_push {A : Type} (array : option (list A)) (value : A)
    : list A :=
  match array with
  | Some l => l ++ [value]
  | None => [value]
  end.

Definition arrayHelpers_remove {A : Type} (array : option (list A)) (index : Z)
    : list A :=
  match array with
  | Some l => splice_one index l
  | None => []
  end.

(** ** Validation *)

Module Schema.

(** [Yup.number()] with its optional [max] bound and [nullable] mark. *)
Record NumberSchema : Type :=
  { max : option Js.Number;
    nullable : bool }.

Definition Yup_number : NumberSchema :=
  {| max := None; nullable := false |}.

Definition with_max (m : Js.Number) (s : NumberSchema) : NumberSchema :=
  {| max := Some m; nullable := nullable s |}.

Definition with_nullable (s : NumberSchema) : NumberSchema :=
  {| max := max s; nullable := true |}.

(** Modelled from the spec: the validation of a number schema, done by the
    Yup library, which is not part of the sources; the rules are the
    library's.  A value that is [null] ([None] here) passes when the schema
    is nullable; a number passes the type check unless it is [NaN], and then
    every test the schema was given runs, [max] being [value <= max].  The
    schema of the source is given no other test. *)
Definition validate_number (s : NumberSchema) (v : option Js.Number) : bool :=
  match v with
  | None => nullable s
  | Some n =>
      match n with
      | Js.NaN => false
      | _ =>
          match max s with
          | Some m => Js.number_le n m
          | None => true
          end
      end
  end.

(** [num_chunks: Yup.number().max(20).nullable()] *)
Definition num_chunks : NumberSchema :=
  with_nullable (with_max (Js.of_Z 20) Yup_number).

(** The object the [.test] callback receives. *)
Module Cast.
Record t : Type :=
  { system_prompt : option string;
    task_prompt : option string }.
End Cast.

(** Modelled from the spec: what the Formik library, which is not part of
    the sources, hands to the schema.  An empty string in the form is an
    absent ([undefined]) value for the schema; this is why the callback
    below tests its fields before it reads their length. *)
Definition prepareDataForValidation (v : Values) : Cast.t :=
  {| Cast.system_prompt :=
       if (system_prompt v =? "")%string then None
       else Some (system_prompt v);
     Cast.task_prompt :=
       if (task_prompt v =? "")%string then None
       else Some (task_prompt v) |}.

(** Modelled from the spec: how the caller of a [.test] callback, the Yup
    library, which is not part of the sources, reads its result.  The
    callback answers [true] or nothing ([None]); an absent or falsy answer
    is a failure. *)
Definition test_passes (result : option bool) : bool :=
  match result with
  | Some true => true
  | _ => false
  end.

End Schema.

(** ** The component *)

Section PersonaEditor.

Variable props : Props.
Variable io : Collaborators.

(** [isUpdate] and [existingPrompt = existingPersona?.prompts[0] ?? null] *)
Definition isUpdate : bool :=
  match existingPersona props with
  | Some _ => true
  | None => false
  end.

Definition existingPrompt : option Prompt.t :=
  match existingPersona props with
  | Some persona => hd_error (Persona.prompts persona)
  | None => None
  end.

(** [triggerFinalPromptUpdate]: the preview is replaced when the builder
    answers ok, and nothing else is done with the answer. *)
Definition triggerFinalPromptUpdate (systemPrompt taskPrompt : string)
    (retrievalDisabled : bool) : Handler unit :=
  call (BuildFinalPrompt systemPrompt taskPrompt retrievalDisabled) ;;
  let response := buildFinalPrompt io systemPrompt taskPrompt retrievalDisabled in
  if ok response then
    setFinalPrompt (final_prompt_template response)
  else
    ret tt.

(** The [useEffect] that runs once on mount. *)
Definition onMount : Handler unit :=
  match existingPersona props, existingPrompt with
  | Some persona, Some prompt =>
      triggerFinalPromptUpdate
        (Prompt.system_prompt prompt)
        (Prompt.task_prompt prompt)
        (match Persona.num_chunks persona with
         | Some n => Js.number_strict_eq n (Js.of_Z 0)
         | None => false
         end)
  | _, _ => ret tt
  end.

(** What is rendered under "Final Prompt". *)
Definition displayedFinalPrompt (e : Editor) : string :=
  match finalPrompt e with
  | Some text => if Js.string_truthy text then text else "-"
  | None => "-"
  end.

(** The [initialValues] of the form. *)
Definition initialValues : Values :=
  match existingPersona props with
  | Some persona =>
      {| name := Persona.name persona;
         description := Persona.description persona;
         system_prompt :=
           match existingPrompt with
           | Some prompt => Prompt.system_prompt prompt
           | None => ""
           end;
         task_prompt :=
           match existingPrompt with
           | Some prompt => Prompt.task_prompt prompt
           | None => ""
           end;
         disable_retrieval :=
           match Persona.num_chunks persona with
           | Some n => Js.number_strict_eq n (Js.of_Z 0)
           | None => Js.number_strict_eq (Js.of_Z 10) (Js.of_Z 0)
           end;
         document_set_ids := map DocumentSet.id (Persona.document_sets persona);
         num_chunks :=
           match Persona.num_chunks persona with
           | Some n => Js.Num n
           | None => Js.Null
           end;
         include_citations :=
           match hd_error (Persona.prompts persona) with
           | Some prompt => Prompt.include_citations prompt
           | None => true
           end;
         llm_relevance_filter := Persona.llm_relevance_filter persona;
         llm_model_version_override := Persona.llm_model_version_override persona;
         starter_messages :=
           option_map (map EntryObject) (Persona.starter_messages persona) |}
  | None =>
      {| name := "";
         description := "";
         system_prompt := "";
         task_prompt := "";
         disable_retrieval := Js.number_strict_eq (Js.of_Z 10) (Js.of_Z 0);
         document_set_ids := [];
         num_chunks := Js.Null;
         include_citations := true;
         llm_relevance_filter := false;
         llm_model_version_override := None;
         starter_messages := None |}
  end.

(** The editor as it is mounted. *)
Definition mounted : Editor :=
  {| values := initialValues;
     finalPrompt := Some "";
     finalPromptError := "";
     popup := None;
     isSubmitting := false;
     calls := [] |}.

(** *** The cross-field test of the schema

    The callback of [.test("system-prompt-or-task-prompt", ...)]: it answers
    [true] after clearing [finalPromptError], or sets the error and falls
    off its end, answering nothing. *)
Definition system_prompt_or_task_prompt (values : Schema.Cast.t)
    : Handler (option bool) :=
  let systemPromptSpecified :=
    match Schema.Cast.system_prompt values with
    | Some s => if Js.string_truthy s then 0 <? Z.of_nat (String.length s) else false
    | None => false
    end in
  let taskPromptSpecified :=
    match Schema.Cast.task_prompt values with
    | Some s => if Js.string_truthy s then 0 <? Z.of_nat (String.length s) else false
    | None => false
    end in
  if systemPromptSpecified || taskPromptSpecified then
    setFinalPromptError "" ;;
    ret (Some true)
  else
    setFinalPromptError "Must provide at least one of System Prompt or Task Prompt" ;;
    ret None.

(** The cross-field validation of a draft: Formik prepares the values, the
    callback runs, its answer is read by the schema. *)
Definition validate_prompts (v : Values) : Handler bool :=
  result <- system_prompt_or_task_prompt (Schema.prepareDataForValidation v) ;;
  ret (Schema.test_passes result).

(** *** Submission *)

Definition onSubmit (values : Values) : Handler unit :=
  error_set <- read finalPromptError ;;
  if Js.string_truthy error_set then
    setPopup {| type := "error";
                message := "Cannot submit while there are errors in the form!" |}
  else
    setSubmitting true ;;
    (* if disable_retrieval is set, set num_chunks to 0 *)
    let numChunks :=
      if disable_retrieval values then Js.Num (Js.of_Z 0)
      else Js.or (num_chunks values) (Js.Num (Js.of_Z 10)) in
    '(promptResponse, personaResponse) <-
      match existingPersona props with
      | Some persona =>
          let request :=
            {| id := Persona.id persona;
               existingPromptId := option_map Prompt.id existingPrompt;
               update_fields := with_num_chunks numChunks values |} in
          call (UpdatePersona request) ;;
          ret (updatePersona io request)
      | None =>
          let request :=
            {| creation_fields := with_num_chunks numChunks values |} in
          call (CreatePersona request) ;;
          ret (createPersona io request)
      end ;;
    let error : option string := None in
    let error :=
      if negb (ok promptResponse) then Some (text promptResponse) else error in
    let error :=
      match personaResponse with
      | Some response =>
          if negb (ok response) then Some (text response) else error
      | None => error
      end in
    match error with
    | Some body =>
        if Js.string_truthy body then
          setPopup {| type := "error";
                      message := "Failed to create Persona - " ++ body |} ;;
          setSubmitting false
        else
          call (RouterPush ("/admin/personas?u="
                            ++ NilZero.string_of_int (Z.to_int (Date_now io))))
    | None =>
        call (RouterPush ("/admin/personas?u="
                          ++ NilZero.string_of_int (Z.to_int (Date_now io))))
    end.

(** *** The document-set chips

    The [onClick] of the chip of [documentSet]: [ind] and [isSelected] are
    those of the render the click happens on, computed from the current
    [values]. *)
Definition documentSet_onClick (documentSet : DocumentSet.t) : Handler unit :=
  values <- read values ;;
  let ind := indexOf (document_set_ids values) (DocumentSet.id documentSet) in
  let isSelected := negb (ind =? -1) in
  if isSelected then
    setValues (fun v =>
      with_document_set_ids
        (arrayHelpers_remove (Some (document_set_ids v)) ind) v)
  else
    setValues (fun v =>
      with_document_set_ids
        (arrayHelpers_push (Some (document_set_ids v)) (DocumentSet.id documentSet)) v).

(** *** The chunk-count field

    The [onChange] of the "Number of Chunks" text field, [value] being
    [e.target.value]. *)
Definition num_chunks_onChange (value : string) : Handler unit :=
  (* Allow only integer values *)
  if (value =? "")%string || Js.test_digits value then
    setValues (with_num_chunks (Js.Str value))
  else
    ret tt.

(** *** Starter messages

    "Add New" and the cross of row [index]. *)
Definition starterMessage_addNew : Handler unit :=
  setValues (fun v =>
    with_starter_messages
      (Some (arrayHelpers_push (starter_messages v) (EntryString ""))) v).

Definition starterMessage_remove (index : Z) : Handler unit :=
  setValues (fun v =>
    with_starter_messages
      (Some (arrayHelpers_remove (starter_messages v) index)) v).

End PersonaEditor.

(** ** The other handlers and the render

    The [setFieldValue] updates of the three fields the preview depends
    on. *)
Definition with_system_prompt (text : string) (values : Values) : Values :=
  {| name := name values;
     description := description values;
     system_prompt := text;
     task_prompt := task_prompt values;
     disable_retrieval := disable_retrieval values;
     document_set_ids := document_set_ids values;
     num_chunks := num_chunks values;
     include_citations := include_citations values;
     llm_relevance_filter := llm_relevance_filter values;
     llm_model_version_override := llm_model_version_override values;
     starter_messages := starter_messages values |}.

Definition with_task_prompt (text : string) (values : Values) : Values :=
  {| name := name values;
     description := description values;
     system_prompt := system_prompt values;
     task_prompt := text;
     disable_retrieval := disable_retrieval values;
     document_set_ids := document_set_ids values;
     num_chunks := num_chunks values;
     include_citations := include_citations values;
     llm_relevance_filter := llm_relevance_filter values;
     llm_model_version_override := llm_model_version_override values;
     starter_messages := starter_messages values |}.

Definition with_disable_retrieval (checked : bool) (values : Values) : Values :=
  {| name := name values;
     description := description values;
     system_prompt := system_prompt values;
     task_prompt := task_prompt values;
     disable_retrieval := checked;
     document_set_ids := document_set_ids values;
     num_chunks := num_chunks values;
     include_citations := include_citations values;
     llm_relevance_filter := llm_relevance_filter values;
     llm_model_version_override := llm_model_version_override values;
     starter_messages := starter_messages values |}.

Section PreviewHandlers.

Variable props : Props.
Variable io : Collaborators.

(** The [onChange] of the "System Prompt" text area, [value] being
    [e.target.value]: the field is set, and a preview is requested with the
    new text and the other two inputs as the render has them. *)
Definition system_prompt_onChange (value : string) : Handler unit :=
  values <- read values ;;
  setValues (with_system_prompt value) ;;
  triggerFinalPromptUpdate io value (task_prompt values) (disable_retrieval values).

(** The [onChange] of the "Task Prompt" text area. *)
Definition task_prompt_onChange (value : string) : Handler unit :=
  values <- read values ;;
  setValues (with_task_prompt value) ;;
  triggerFinalPromptUpdate io (system_prompt values) value (disable_retrieval values).

(** The [onChange] of the "Disable Retrieval" check box, [checked] being
    [e.target.checked]. *)
Definition disable_retrieval_onChange (checked : bool) : Handler unit :=
  values <- read values ;;
  setValues (with_disable_retrieval checked) ;;
  triggerFinalPromptUpdate io (system_prompt values) (task_prompt values) checked.

(** What [triggerFinalPromptUpdate] does once [buildFinalPrompt] has
    answered, that is after its [await]. *)
Definition triggerFinalPromptUpdate_resume (response : Response) : Handler unit :=
  if ok response then
    setFinalPrompt (final_prompt_template response)
  else
    ret tt.

(** The conditions under which the render shows its optional parts:
    [!values.disable_retrieval] for the "Include Citations" box, for the
    document-set section and for the retrieval customization, and
    [llmOverrideOptions.length > 0 && defaultLLM] for the model selection. *)
Definition showIncludeCitations (values : Values) : bool :=
  negb (disable_retrieval values).

Definition showDocumentSets (values : Values) : bool :=
  negb (disable_retrieval values).

Definition showModelSelection : bool :=
  (0 <? Z.of_nat (length (llmOverrideOptions props)))
  && Js.string_truthy (defaultLLM props).

Definition showRetrievalCustomization (values : Values) : bool :=
  negb (disable_retrieval values).

(** [isSelected] of the chip of [documentSet]. *)
Definition chip_isSelected (values : Values) (documentSet : DocumentSet.t) : bool :=
  negb (indexOf (document_set_ids values) (DocumentSet.id documentSet) =? -1).

(** The indices of the starter-message rows that are rendered, each with its
    cross: [values.starter_messages && values.starter_messages.length > 0 &&
    values.starter_messages.map((_, index) => ...)]. *)
Definition starterMessage_rows (values : Values) : list Z :=
  match starter_messages values with
  | Some entries =>
      if 0 <? Z.of_nat (length entries)
      then map Z.of_nat (seq 0 (length entries))
      else []
  | None => []
  end.

(** The label of the submit button and its [disabled] attribute; the
    [disabled] attribute of the "Name" field. *)
Definition submitLabel : string :=
  if isUpdate props then "Update!" else "Create!".

Definition submitDisabled (e : Editor) : bool := isSubmitting e.

Definition nameDisabled : bool := isUpdate props.

End PreviewHandlers.

(** ** Vocabulary of the statements *)

(** The ten digit characters, and a string that "consists solely of the
    digits 0-9". *)
Definition digit_chars : list ascii :=
  ["0"; "1"; "2"; "3"; "4"; "5"; "6"; "7"; "8"; "9"]%char.

Definition only_digits (s : string) : Prop :=
  s <> "" /\ Forall (fun c => In c digit_chars) (list_ascii_of_string s).

(** The chunk counts handed to [createPersona] and [updatePersona] in a log
    of calls, oldest first. *)
Definition persisted_chunks (log : list Call) : list Js.Value :=
  flat_map (fun c =>
    match c with
    | UpdatePersona request => [num_chunks (update_fields request)]
    | CreatePersona request => [num_chunks (creation_fields request)]
    | _ => []
    end) log.

(** The answer of the persistence collaborators to a logged call. *)
Definition persistence_answer (io : Collaborators) (c : Call)
    : option (Response * option Response) :=
  match c with
  | UpdatePersona request => Some (updatePersona io request)
  | CreatePersona request => Some (createPersona io request)
  | _ => None
  end.

Definition is_navigation (c : Call) : bool :=
  match c with
  | RouterPush _ => true
  | _ => false
  end.

(** "The prompt response is ok and the persona response is absent or ok". *)
Definition responses_ok (promptResponse : Response)
    (personaResponse : option Response) : bool :=
  ok promptResponse
  && match personaResponse with
     | Some response => ok response
     | None => true
     end.

(** "The first encountered error body among the responses", in the order
    prompt, persona. *)
Definition first_error_body (promptResponse : Response)
    (personaResponse : option Response) : option string :=
  if negb (ok promptResponse) then Some (text promptResponse)
  else match personaResponse with
       | Some response =>
           if negb (ok response) then Some (text response) else None
       | None => None
       end.

(** The error body of the last response that is not ok, in the same order. *)
Definition last_error_body (promptResponse : Response)
    (personaResponse : option Response) : option string :=
  match personaResponse with
  | Some response =>
      if negb (ok response) then Some (text response)
      else if negb (ok promptResponse) then Some (text promptResponse)
      else None
  | None =>
      if negb (ok promptResponse) then Some (text promptResponse) else None
  end.

(** "Null or an integer in the closed interval [0, 20]". *)
Definition null_or_integer_0_20 (v : option Js.Number) : Prop :=
  match v with
  | None => True
  | Some n =>
      Js.is_integer n = true
      /\ Js.number_le (Js.of_Z 0) n = true
      /\ Js.number_le n (Js.of_Z 20) = true
  end.

(** "A blank StarterMessage template". *)
Definition blank_template : StarterMessage.t :=
  {| StarterMessage.name := "";
     StarterMessage.description := "";
     StarterMessage.message := "" |}.

(** The editor after the events of a list have been handled one after the
    other, oldest first. *)
Definition after_all {A : Type} (handle : A -> Handler unit)
    (events : list A) (e : Editor) : Editor :=
  fold_left (fun state event => execState (handle event) state) events e.

(** The template of the last response of a list that is ok, if any. *)
Definition last_ok_template (responses : list Response)
    : option (option string) :=
  fold_left (fun found response =>
               if ok response then Some (final_prompt_template response)
               else found)
    responses None.


(** An edit of one of the three inputs of the preview, and its handler. *)
Inductive PreviewEdit : Type :=
| EditSystemPrompt (text : string)
| EditTaskPrompt (text : string)
| CheckDisableRetrieval (checked : bool).

Definition preview_edit (io : Collaborators) (edit : PreviewEdit) : Handler unit :=
  match edit with
  | EditSystemPrompt text => system_prompt_onChange io text
  | EditTaskPrompt text => task_prompt_onChange io text
  | CheckDisableRetrieval checked => disable_retrieval_onChange io checked
  end.

(** The preview request for the inputs a draft holds, and its answer. *)
Definition preview_request (v : Values) : Call :=
  BuildFinalPrompt (system_prompt v) (task_prompt v) (disable_retrieval v).

Definition preview_answer (io : Collaborators) (v : Values) : Response :=
  buildFinalPrompt io (system_prompt v) (task_prompt v) (disable_retrieval v).

(** The request [onSubmit] builds for a draft and a chunk count. *)
Definition persistence_request (props : Props) (v : Values) (chunk : Js.Value)
    : Call :=
  match existingPersona props with
  | Some persona =>
      UpdatePersona
        {| id := Persona.id persona;
           existingPromptId := option_map Prompt.id (hd_error (Persona.prompts persona));
           update_fields := with_num_chunks chunk v |}
  | None =>
      CreatePersona {| creation_fields := with_num_chunks chunk v |}
  end.

(** The chunk count [onSubmit] computes for a draft. *)
Definition effective_chunks (v : Values) : Js.Value :=
  if disable_retrieval v then Js.Num (Js.of_Z 0)
  else Js.or (num_chunks v) (Js.Num (Js.of_Z 10)).

(** Where a successful submission navigates to. *)
Definition personas_url (io : Collaborators) : string :=
  "/admin/personas?u=" ++ NilZero.string_of_int (Z.to_int (Date_now io)).

(** ** Sample inputs

    Concrete props, collaborators and drafts on which the statements below
    are exercised. *)

Module Sample.

Definition handbook : DocumentSet.t :=
  {| DocumentSet.id := 1; DocumentSet.name := "Handbook" |}.

Definition wiki : DocumentSet.t :=
  {| DocumentSet.id := 2; DocumentSet.name := "Wiki" |}.

Definition tickets : DocumentSet.t :=
  {| DocumentSet.id := 3; DocumentSet.name := "Tickets" |}.

(** Create mode: no existing persona. *)
Definition create_props : Props :=
  {| existingPersona := None;
     documentSets := [handbook; wiki; tickets];
     llmOverrideOptions := [];
     defaultLLM := "" |}.

Definition ok_response : Response :=
  {| ok := true; text := ""; final_prompt_template := Some "X" |}.

Definition failed (body : string) : Response :=
  {| ok := false; text := body; final_prompt_template := None |}.

(** Collaborators that answer every request the same way. *)
Definition answering (preview prompt : Response) (persona : option Response)
    : Collaborators :=
  {| buildFinalPrompt := fun _ _ _ => preview;
     updatePersona := fun _ => (prompt, persona);
     createPersona := fun _ => (prompt, persona);
     Date_now := 1700000000000 |}.

Definition all_ok : Collaborators :=
  answering ok_response ok_response (Some ok_response).

(** "Support Bot": the draft of a first persona. *)
Definition support_bot : Values :=
  {| name := "Support Bot";
     description := "helps support";
     system_prompt := "You are helpful.";
     task_prompt := "";
     disable_retrieval := false;
     document_set_ids := [1; 2];
     num_chunks := Js.Null;
     include_citations := true;
     llm_relevance_filter := false;
     llm_model_version_override := None;
     starter_messages := None |}.

(** The same draft with both prompts left empty. *)
Definition unprompted : Values :=
  {| name := "Support Bot";
     description := "helps support";
     system_prompt := "";
     task_prompt := "";
     disable_retrieval := false;
     document_set_ids := [];
     num_chunks := Js.Null;
     include_citations := true;
     llm_relevance_filter := false;
     llm_model_version_override := None;
     starter_messages := None |}.

(** An existing persona saved with retrieval switched off, and the props
    of the editor opened on it. *)
Definition concierge : Persona.t :=
  {| Persona.id := 7;
     Persona.name := "Concierge";
     Persona.description := "answers from the prompt alone";
     Persona.num_chunks := Some (Js.of_Z 0);
     Persona.prompts :=
       [{| Prompt.id := 12;
           Prompt.system_prompt := "You are a concierge.";
           Prompt.task_prompt := "";
           Prompt.include_citations := false |}];
     Persona.document_sets := [handbook];
     Persona.llm_relevance_filter := false;
     Persona.llm_model_version_override := None;
     Persona.starter_messages := None |}.

Definition update_props : Props :=
  {| existingPersona := Some concierge;
     documentSets := [handbook; wiki; tickets];
     llmOverrideOptions := [];
     defaultLLM := "" |}.

Definition entry (label : string) : StarterEntry :=
  EntryObject {| StarterMessage.name := label;
                 StarterMessage.description := label;
                 StarterMessage.message := label |}.

Definition editing (v : Values) : Editor :=
  {| values := v;
     finalPrompt := Some "";
     finalPromptError := "";
     popup := None;
     isSubmitting := false;
     calls := [] |}.

End Sample.

(** * Properties *)

(** ** Reading numbers *)

Example decimal_literal_examples :
  Js.decimal_literal "15" = Some (Js.of_Z 15)
  /\ Js.decimal_literal "007" = Some (Js.of_Z 7)
  /\ option_map Js.is_negative (Js.decimal_literal "-3") = Some true
  /\ option_map Js.is_integer (Js.decimal_literal "2.5") = Some false
  /\ option_map Js.is_integer (Js.decimal_literal "5.") = Some true
  /\ Js.decimal_literal "." = None
  /\ Js.decimal_literal "1e3" = None
  /\ Js.test_digits "15" = true
  /\ Js.test_digits "" = false
  /\ Js.test_digits "-3" = false
  /\ Js.test_digits "2.5" = false.
Proof. vm_compute. repeat split; reflexivity. Qed.

(** ** Arrays *)

Section ArrayFacts.

Lemma indexOf_from_absent (l : list Z) (x i : Z) :
  ~ In x l -> indexOf_from l x i = -1.
Proof.
  revert i. induction l as [| y rest IH]; intros i Hx; simpl.
  - reflexivity.
  - destruct (Z.eqb_spec y x) as [-> | _].
    + exfalso. apply Hx. now left.
    + apply IH. intros Hin. apply Hx. now right.
Qed.

Lemma indexOf_from_present (l : list Z) (x i : Z) :
  In x l -> i <= indexOf_from l x i < i + Z.of_nat (length l).
Proof.
  revert i. induction l as [| y rest IH]; intros i Hx.
  - destruct Hx.
  - cbn [indexOf_from length]. destruct (Z.eqb_spec y x) as [_ | Hne].
    + lia.
    + destruct Hx as [Heq | Hin]; [contradiction |].
      specialize (IH (i + 1) Hin). lia.
Qed.

Lemma indexOf_found_iff (l : list Z) (x : Z) :
  indexOf l x <> -1 <-> In x l.
Proof.
  unfold indexOf. split.
  - intros Hfound. destruct (in_dec Z.eq_dec x l) as [Hin | Hout]; [exact Hin |].
    exfalso. apply Hfound. now apply indexOf_from_absent.
  - intros Hin. pose proof (indexOf_from_present l x 0 Hin). lia.
Qed.

Lemma indexOf_from_appended (l : list Z) (x i : Z) :
  ~ In x l -> indexOf_from (l ++ [x]) x i = i + Z.of_nat (length l).
Proof.
  revert i. induction l as [| y rest IH]; intros i Hx.
  - simpl. rewrite Z.eqb_refl. lia.
  - cbn [app indexOf_from length]. destruct (Z.eqb_spec y x) as [-> | _].
    + exfalso. apply Hx. now left.
    + rewrite IH by (intros Hin; apply Hx; now right). lia.
Qed.

Lemma remove_nth_appended {A : Type} (l : list A) (x : A) :
  remove_nth (length l) (l ++ [x]) = l.
Proof.
  induction l as [| y rest IH]; simpl; [reflexivity | now rewrite IH].
Qed.

Lemma splice_one_appended {A : Type} (l : list A) (x : A) :
  splice_one (Z.of_nat (length l)) (l ++ [x]) = l.
Proof.
  unfold splice_one. rewrite length_app. cbn [length].
  destruct (Z.ltb_spec (Z.of_nat (length l)) 0) as [Hneg | _]; [lia |].
  rewrite Z.min_l by lia. rewrite Nat2Z.id. apply remove_nth_appended.
Qed.

Lemma In_remove_nth {A : Type} (n : nat) (l : list A) (x : A) :
  In x (remove_nth n l) -> In x l.
Proof.
  revert n. induction l as [| y rest IH]; intros n Hin.
  - destruct n; exact Hin.
  - destruct n as [| k]; simpl in Hin.
    + now right.
    + destruct Hin as [-> | Hin]; [now left | right; eauto].
Qed.

Lemma NoDup_remove_nth {A : Type} (n : nat) (l : list A) :
  NoDup l -> NoDup (remove_nth n l).
Proof.
  intros Hnd. revert n. induction Hnd as [| y rest Hy Hnd IH]; intros n.
  - destruct n; constructor.
  - destruct n as [| k]; simpl.
    + exact Hnd.
    + constructor; [| apply IH].
      intros Hin. apply Hy. eapply In_remove_nth. exact Hin.
Qed.

Lemma NoDup_appended {A : Type} (l : list A) (x : A) :
  NoDup l -> ~ In x l -> NoDup (l ++ [x]).
Proof.
  intros Hnd Hx. induction Hnd as [| y rest Hy Hnd IH]; simpl.
  - constructor; [intros [] | constructor].
  - constructor.
    + rewrite in_app_iff. intros [Hin | [Heq | []]].
      * contradiction.
      * apply Hx. left. now symmetry.
    + apply IH. intros Hin. apply Hx. now right.
Qed.

End ArrayFacts.

(** ** The document-set chips *)

Section DocumentSets.

Lemma with_document_set_ids_same (v : Values) :
  with_document_set_ids (document_set_ids v) v = v.
Proof. destruct v; reflexivity. Qed.

(** What one click on a chip does to the draft. *)
Lemma documentSet_onClick_values (documentSet : DocumentSet.t) (e : Editor) :
  document_set_ids (values (execState (documentSet_onClick documentSet) e)) =
  if in_dec Z.eq_dec (DocumentSet.id documentSet) (document_set_ids (values e))
  then splice_one (indexOf (document_set_ids (values e)) (DocumentSet.id documentSet))
         (document_set_ids (values e))
  else document_set_ids (values e) ++ [DocumentSet.id documentSet].
Proof.
  unfold documentSet_onClick, execState. cbn.
  destruct (in_dec Z.eq_dec _ _) as [Hin | Hout].
  - apply indexOf_found_iff in Hin.
    destruct (Z.eqb_spec (indexOf (document_set_ids (values e))
                            (DocumentSet.id documentSet)) (-1)) as [Heq | _];
      [contradiction | reflexivity].
  - unfold indexOf. rewrite (indexOf_from_absent _ _ _ Hout). reflexivity.
Qed.

End DocumentSets.

(** C7: for a document set whose identifier is not in the collection, a click
    on its chip appends the identifier at the end, and a second click on the
    same chip removes it again: the editor is back in the state it had before
    the two clicks, the collection with the same content in the same order. *)
Theorem documentSet_toggle_twice (documentSet : DocumentSet.t) (e : Editor) :
  ~ In (DocumentSet.id documentSet) (document_set_ids (values e)) ->
  let once := execState (documentSet_onClick documentSet) e in
  let twice := execState (documentSet_onClick documentSet) once in
  document_set_ids (values once)
    = document_set_ids (values e) ++ [DocumentSet.id documentSet]
  /\ document_set_ids (values twice) = document_set_ids (values e)
  /\ twice = e.
Proof.
  intros Hout once twice.
  assert (Hindex :
    indexOf (document_set_ids (values e) ++ [DocumentSet.id documentSet])
      (DocumentSet.id documentSet)
    = Z.of_nat (length (document_set_ids (values e)))).
  { unfold indexOf. rewrite indexOf_from_appended by exact Hout. lia. }
  assert (Hfirst : indexOf (document_set_ids (values e))
                     (DocumentSet.id documentSet) = -1).
  { unfold indexOf. now apply indexOf_from_absent. }
  assert (Honce : once =
    {| values := with_document_set_ids
         (document_set_ids (values e) ++ [DocumentSet.id documentSet]) (values e);
       finalPrompt := finalPrompt e;
       finalPromptError := finalPromptError e;
       popup := popup e;
       isSubmitting := isSubmitting e;
       calls := calls e |}).
  { subst once. unfold documentSet_onClick, execState. cbn.
    rewrite Hfirst. reflexivity. }
  assert (Htwice : twice = e).
  { subst twice. rewrite Honce. unfold documentSet_onClick, execState. cbn.
    unfold indexOf in Hindex |- *. rewrite Hindex.
    destruct (Z.eqb_spec (Z.of_nat (length (document_set_ids (values e)))) (-1))
      as [Hneg | _]; [lia |].
    cbn. rewrite splice_one_appended.
    destruct e as [v fp fpe pp sub cs]. destruct v. reflexivity. }
  split; [| split].
  - rewrite Honce. reflexivity.
  - now rewrite Htwice.
  - exact Htwice.
Qed.

Lemma documentSet_toggle_twice_witness :
  ~ In 3 [1; 2]
  /\ document_set_ids
       (values (execState (documentSet_onClick Sample.tickets)
                  (Sample.editing Sample.support_bot))) = [1; 2; 3]
  /\ execState (documentSet_onClick Sample.tickets)
       (execState (documentSet_onClick Sample.tickets)
          (Sample.editing Sample.support_bot))
     = Sample.editing Sample.support_bot.
Proof.
  assert (Hout : ~ In (DocumentSet.id Sample.tickets)
                    (document_set_ids (values (Sample.editing Sample.support_bot)))).
  { simpl. intros [H | [H | []]]; discriminate H. }
  split; [exact Hout |].
  destruct (documentSet_toggle_twice Sample.tickets
              (Sample.editing Sample.support_bot) Hout) as (Honce & _ & Htwice).
  split; [exact Honce | exact Htwice].
Defined.

(** C8: a click on a chip, whether it adds or removes an identifier, keeps the
    collection of document-set identifiers free of duplicates. *)
Theorem documentSet_toggle_NoDup (documentSet : DocumentSet.t) (e : Editor) :
  NoDup (document_set_ids (values e)) ->
  NoDup (document_set_ids (values (execState (documentSet_onClick documentSet) e))).
Proof.
  intros Hnd. rewrite documentSet_onClick_values.
  destruct (in_dec Z.eq_dec _ _) as [Hin | Hout].
  - unfold splice_one. now apply NoDup_remove_nth.
  - now apply NoDup_appended.
Qed.

Lemma documentSet_toggle_NoDup_witness :
  NoDup [1; 2]
  /\ NoDup (document_set_ids
              (values (execState (documentSet_onClick Sample.wiki)
                         (Sample.editing Sample.support_bot)))).
Proof.
  assert (Hnd : NoDup (document_set_ids (values (Sample.editing Sample.support_bot)))).
  { simpl. repeat constructor; simpl; intuition discriminate. }
  split; [exact Hnd |].
  exact (documentSet_toggle_NoDup Sample.wiki (Sample.editing Sample.support_bot) Hnd).
Defined.

(** ** The chunk-count field *)

Section ChunkCountField.

Lemma is_digit_spec (c : ascii) :
  Js.is_digit c = true <-> In c digit_chars.
Proof.
  destruct c as [[] [] [] [] [] [] [] []]; vm_compute;
    split; intros H; try discriminate H; try reflexivity;
    intuition (try discriminate; auto).
Qed.

Lemma forallb_is_digit_spec (cs : list ascii) :
  forallb Js.is_digit cs = true <-> Forall (fun c => In c digit_chars) cs.
Proof.
  rewrite forallb_forall, Forall_forall.
  split; intros H c Hc; apply is_digit_spec, H, Hc.
Qed.

Lemma string_nonempty_chars (s : string) :
  s <> "" <-> list_ascii_of_string s <> [].
Proof.
  destruct s; simpl; split; intros H; congruence.
Qed.

(** The regular expression accepts exactly the non-empty strings of
    digits. *)
Lemma test_digits_spec (value : string) :
  Js.test_digits value = true <-> only_digits value.
Proof.
  unfold Js.test_digits, only_digits. rewrite string_nonempty_chars.
  destruct (list_ascii_of_string value) as [| c cs].
  - split; [discriminate | intros [H _]; now contradiction H].
  - change (Js.is_digit c && forallb Js.is_digit cs)
      with (forallb Js.is_digit (c :: cs)).
    rewrite forallb_is_digit_spec. split; [intros H; split; [discriminate | exact H] | tauto].
Qed.

Lemma split_point_digits (cs : list ascii) :
  forallb Js.is_digit cs = true -> Js.split_point cs = (cs, None).
Proof.
  induction cs as [| c rest IH]; simpl; [reflexivity |].
  intros H. apply andb_true_iff in H as [Hc Hrest].
  destruct (Ascii.eqb_spec c ".") as [-> | _]; [discriminate Hc |].
  now rewrite IH.
Qed.

Lemma digits_value_digits (cs : list ascii) (acc : N) :
  forallb Js.is_digit cs = true -> exists n, Js.digits_value acc cs = Some n.
Proof.
  revert acc. induction cs as [| c rest IH]; simpl; intros acc H.
  - now exists acc.
  - apply andb_true_iff in H as [Hc Hrest]. rewrite Hc. now apply IH.
Qed.

(** Read as a number, a non-empty string of digits is a natural number. *)
Lemma decimal_literal_digits (value : string) :
  Js.test_digits value = true ->
  exists n : N, Js.decimal_literal value = Some (Js.of_Z (Z.of_N n)).
Proof.
  unfold Js.test_digits, Js.decimal_literal.
  destruct (list_ascii_of_string value) as [| c cs]; [discriminate |].
  intros H.
  assert (Hall : forallb Js.is_digit (c :: cs) = true) by exact H.
  apply andb_true_iff in H as [Hc _].
  destruct (Ascii.eqb_spec c "-") as [-> | _]; [discriminate Hc |].
  destruct (Ascii.eqb_spec c "+") as [-> | _]; [discriminate Hc |].
  unfold Js.unsigned_decimal. rewrite (split_point_digits _ Hall).
  destruct (digits_value_digits (c :: cs) 0 Hall) as [n Hn].
  rewrite Hn. now exists n.
Qed.

Lemma of_N_natural (n : N) :
  Js.is_negative (Js.of_Z (Z.of_N n)) = false
  /\ Js.is_integer (Js.of_Z (Z.of_N n)) = true.
Proof.
  unfold Js.is_negative, Js.is_integer, Js.of_Z. split.
  - apply negb_false_iff, Qle_bool_iff.
    unfold Qle, inject_Z. simpl. lia.
  - apply Qeq_bool_iff. rewrite Qfloor_Z. reflexivity.
Qed.

Lemma num_chunks_onChange_accepts (value : string) (e : Editor) :
  (value = "" \/ only_digits value) ->
  execState (num_chunks_onChange value) e =
  {| values := with_num_chunks (Js.Str value) (values e);
     finalPrompt := finalPrompt e;
     finalPromptError := finalPromptError e;
     popup := popup e;
     isSubmitting := isSubmitting e;
     calls := calls e |}.
Proof.
  intros H. unfold num_chunks_onChange.
  assert (Hguard : ((value =? "")%string || Js.test_digits value) = true).
  { apply orb_true_iff. destruct H as [-> | H]; [now left |].
    right. now apply test_digits_spec. }
  rewrite Hguard. reflexivity.
Qed.

Lemma num_chunks_onChange_rejects (value : string) (e : Editor) :
  ~ (value = "" \/ only_digits value) ->
  execState (num_chunks_onChange value) e = e.
Proof.
  intros H. unfold num_chunks_onChange.
  assert (Hguard : ((value =? "")%string || Js.test_digits value) = false).
  { apply orb_false_iff. split.
    - apply String.eqb_neq. tauto.
    - apply not_true_iff_false. rewrite test_digits_spec. tauto. }
  rewrite Hguard. reflexivity.
Qed.

End ChunkCountField.

(** C10: the change handler of the chunk-count field stores the typed text
    when it is empty or consists solely of the digits 0-9, and only then: any
    other text (a sign, a decimal point, a letter) leaves the whole editor as
    it was.  A non-empty text that gets stored therefore holds neither a
    minus sign nor a decimal point, and read as a number it is neither
    negative nor fractional. *)
Theorem num_chunks_onChange_digits_only (value : string) (e : Editor) :
  let e' := execState (num_chunks_onChange value) e in
  ((value = "" \/ only_digits value) ->
     e' = {| values := with_num_chunks (Js.Str value) (values e);
             finalPrompt := finalPrompt e;
             finalPromptError := finalPromptError e;
             popup := popup e;
             isSubmitting := isSubmitting e;
             calls := calls e |}
     /\ num_chunks (values e') = Js.Str value)
  /\ (~ (value = "" \/ only_digits value) -> e' = e)
  /\ (num_chunks (values e') <> num_chunks (values e) ->
        (value = "" \/ only_digits value)
        /\ num_chunks (values e') = Js.Str value)
  /\ (only_digits value ->
        ~ In "-"%char (list_ascii_of_string value)
        /\ ~ In "."%char (list_ascii_of_string value)
        /\ exists n, Js.decimal_literal value = Some n
                     /\ Js.is_negative n = false
                     /\ Js.is_integer n = true).
Proof.
  intros e'.
  assert (Haccept : (value = "" \/ only_digits value) ->
                    e' = {| values := with_num_chunks (Js.Str value) (values e);
                            finalPrompt := finalPrompt e;
                            finalPromptError := finalPromptError e;
                            popup := popup e;
                            isSubmitting := isSubmitting e;
                            calls := calls e |}
                    /\ num_chunks (values e') = Js.Str value).
  { intros H. subst e'. rewrite (num_chunks_onChange_accepts value e H).
    split; reflexivity. }
  assert (Hreject : ~ (value = "" \/ only_digits value) -> e' = e).
  { intros H. subst e'. now apply num_chunks_onChange_rejects. }
  split; [exact Haccept |]. split; [exact Hreject |]. split.
  - intros Hchanged.
    destruct ((value =? "")%string || Js.test_digits value) eqn:Hguard.
    + assert (H : value = "" \/ only_digits value).
      { apply orb_true_iff in Hguard as [Hempty | Hdigits].
        - left. now apply String.eqb_eq.
        - right. now apply test_digits_spec. }
      split; [exact H | apply Haccept, H].
    + exfalso. apply Hchanged. rewrite Hreject; [reflexivity |].
      apply orb_false_iff in Hguard as [Hempty Hdigits].
      intros [H | H].
      * apply String.eqb_neq in Hempty. contradiction.
      * apply test_digits_spec in H. congruence.
  - intros Hdigits. pose proof Hdigits as [_ Hall]. rewrite Forall_forall in Hall.
    split; [| split].
    + intros Hin. apply Hall in Hin. simpl in Hin.
      repeat (destruct Hin as [Hin | Hin]; [discriminate Hin |]). exact Hin.
    + intros Hin. apply Hall in Hin. simpl in Hin.
      repeat (destruct Hin as [Hin | Hin]; [discriminate Hin |]). exact Hin.
    + apply test_digits_spec in Hdigits.
      destruct (decimal_literal_digits value Hdigits) as [n Hn].
      destruct (of_N_natural n) as [Hneg Hint].
      exists (Js.of_Z (Z.of_N n)). repeat split; assumption.
Qed.

Lemma num_chunks_onChange_digits_only_witness :
  num_chunks (values (execState (num_chunks_onChange "15")
                        (Sample.editing Sample.support_bot))) = Js.Str "15"
  /\ execState (num_chunks_onChange "-3") (Sample.editing Sample.support_bot)
     = Sample.editing Sample.support_bot
  /\ execState (num_chunks_onChange "2.5") (Sample.editing Sample.support_bot)
     = Sample.editing Sample.support_bot.
Proof.
  destruct (num_chunks_onChange_digits_only "15" (Sample.editing Sample.support_bot))
    as (Haccept & _).
  destruct (num_chunks_onChange_digits_only "-3" (Sample.editing Sample.support_bot))
    as (_ & Hsign & _).
  destruct (num_chunks_onChange_digits_only "2.5" (Sample.editing Sample.support_bot))
    as (_ & Hpoint & _).
  split; [| split].
  - apply Haccept. right. apply test_digits_spec. reflexivity.
  - apply Hsign. intros [H | H]; [discriminate H |].
    apply test_digits_spec in H. discriminate H.
  - apply Hpoint. intros [H | H]; [discriminate H |].
    apply test_digits_spec in H. discriminate H.
Defined.

(** ** Submission *)

Section Submission.

Variable props : Props.
Variable io : Collaborators.

Lemma string_truthy_spec (s : string) :
  Js.string_truthy s = true <-> s <> "".
Proof.
  unfold Js.string_truthy. rewrite negb_true_iff. apply String.eqb_neq.
Qed.

Lemma string_truthy_false (s : string) :
  Js.string_truthy s = false <-> s = "".
Proof.
  unfold Js.string_truthy. rewrite negb_false_iff. apply String.eqb_eq.
Qed.

(** With the cross-field error set, [onSubmit] raises the pop-up and
    returns. *)
Lemma onSubmit_blocked_run (v : Values) (e : Editor) :
  finalPromptError e <> "" ->
  execState (onSubmit props io v) e =
  {| values := values e;
     finalPrompt := finalPrompt e;
     finalPromptError := finalPromptError e;
     popup := Some {| type := "error";
                      message := "Cannot submit while there are errors in the form!" |};
     isSubmitting := isSubmitting e;
     calls := calls e |}.
Proof.
  intros Herr. apply string_truthy_spec in Herr.
  unfold onSubmit, execState. cbn. rewrite Herr. reflexivity.
Qed.

(** Without it, one request goes to the persistence collaborator, and the
    two responses decide between the error pop-up and the navigation. *)
Lemma onSubmit_unblocked_run (v : Values) (e : Editor) :
  finalPromptError e = "" ->
  exists (c : Call) (promptResponse : Response) (personaResponse : option Response),
    persistence_answer io c = Some (promptResponse, personaResponse)
    /\ persisted_chunks [c] =
         [if disable_retrieval v then Js.Num (Js.of_Z 0)
          else Js.or (num_chunks v) (Js.Num (Js.of_Z 10))]
    /\ is_navigation c = false
    /\ execState (onSubmit props io v) e =
       match last_error_body promptResponse personaResponse with
       | Some (String _ _ as body) =>
           {| values := values e;
              finalPrompt := finalPrompt e;
              finalPromptError := finalPromptError e;
              popup := Some {| type := "error";
                               message := "Failed to create Persona - " ++ body |};
              isSubmitting := false;
              calls := calls e ++ [c] |}
       | _ =>
           {| values := values e;
              finalPrompt := finalPrompt e;
              finalPromptError := finalPromptError e;
              popup := popup e;
              isSubmitting := true;
              calls := (calls e ++ [c])
                       ++ [RouterPush ("/admin/personas?u="
                             ++ NilZero.string_of_int (Z.to_int (Date_now io)))] |}
       end.
Proof.
  intros Herr. apply string_truthy_false in Herr.
  unfold onSubmit, execState. cbn. rewrite Herr. cbn.
  destruct (existingPersona props) as [persona |]; cbn.
  - match goal with
    | |- context [updatePersona io ?r] =>
        exists (UpdatePersona r); destruct (updatePersona io r) as [p q] eqn:Hanswer
    end.
    exists p, q. cbn. rewrite Hanswer.
    split; [reflexivity |]. split; [reflexivity |]. split; [reflexivity |].
    unfold last_error_body.
    destruct q as [r |]; [destruct (ok r) |]; destruct (ok p); cbn;
      repeat match goal with
             | |- context [text ?x] => destruct (text x); cbn
             end; reflexivity.
  - match goal with
    | |- context [createPersona io ?r] =>
        exists (CreatePersona r); destruct (createPersona io r) as [p q] eqn:Hanswer
    end.
    exists p, q. cbn. rewrite Hanswer.
    split; [reflexivity |]. split; [reflexivity |]. split; [reflexivity |].
    unfold last_error_body.
    destruct q as [r |]; [destruct (ok r) |]; destruct (ok p); cbn;
      repeat match goal with
             | |- context [text ?x] => destruct (text x); cbn
             end; reflexivity.
Qed.

End Submission.

Lemma persisted_chunks_app (log more : list Call) :
  persisted_chunks (log ++ more) = persisted_chunks log ++ persisted_chunks more.
Proof. apply flat_map_app. Qed.

Lemma persisted_chunks_navigation (url : string) :
  persisted_chunks [RouterPush url] = [].
Proof. reflexivity. Qed.

(** The values that [||] replaces by its right operand. *)
Lemma truthy_false_iff (x : Js.Value) :
  Js.truthy x = false <->
  x = Js.Null \/ x = Js.Str "" \/ x = Js.Num Js.NaN
  \/ exists q, x = Js.Num (Js.Finite q) /\ (q == 0)%Q.
Proof.
  destruct x as [| [| negative | q] | s]; simpl.
  - split; [now left | reflexivity].
  - split; [intros _; right; right; now left | reflexivity].
  - split; [discriminate |].
    intros [H | [H | [H | (q & H & _)]]]; discriminate H.
  - rewrite negb_false_iff, Qeq_bool_iff. split.
    + intros H. right. right. right. now exists q.
    + intros [H | [H | [H | (q' & H & Hq)]]]; try discriminate H.
      now injection H as ->.
  - rewrite string_truthy_false. split.
    + intros ->. right. now left.
    + intros [H | [H | [H | (q & H & _)]]]; try discriminate H.
      now injection H as ->.
Qed.

(** C1, as amended: [onSubmit] never changes the draft, and when no
    cross-field error is set it hands exactly one chunk count to the
    persistence collaborator: [0] when [disable_retrieval] is set; otherwise
    the stored [num_chunks] when that value is truthy, and [10] when it is
    falsy, that is [null], the number [0] or the empty text of a cleared
    field. *)
Theorem onSubmit_effective_chunks
    (props : Props) (io : Collaborators) (v : Values) (e : Editor) :
  let e' := execState (onSubmit props io v) e in
  values e' = values e
  /\ exists chunk : Js.Value,
       persisted_chunks (calls e') =
         persisted_chunks (calls e)
         ++ (if Js.string_truthy (finalPromptError e) then [] else [chunk])
       /\ (disable_retrieval v = true -> chunk = Js.Num (Js.of_Z 0))
       /\ (disable_retrieval v = false -> Js.truthy (num_chunks v) = true ->
             chunk = num_chunks v)
       /\ (disable_retrieval v = false -> Js.truthy (num_chunks v) = false ->
             chunk = Js.Num (Js.of_Z 10))
       /\ (disable_retrieval v = false ->
             num_chunks v = Js.Null \/ num_chunks v = Js.Num (Js.of_Z 0)
             \/ num_chunks v = Js.Str "" ->
             chunk = Js.Num (Js.of_Z 10)).
Proof.
  intros e'.
  set (chunk := if disable_retrieval v then Js.Num (Js.of_Z 0)
                else Js.or (num_chunks v) (Js.Num (Js.of_Z 10))).
  assert (Hzero : disable_retrieval v = true -> chunk = Js.Num (Js.of_Z 0)).
  { intros H. subst chunk. now rewrite H. }
  assert (Htruthy : disable_retrieval v = false -> Js.truthy (num_chunks v) = true ->
                    chunk = num_chunks v).
  { intros H Ht. subst chunk. rewrite H. unfold Js.or. now rewrite Ht. }
  assert (Hfalsy : disable_retrieval v = false -> Js.truthy (num_chunks v) = false ->
                   chunk = Js.Num (Js.of_Z 10)).
  { intros H Hf. subst chunk. rewrite H. unfold Js.or. now rewrite Hf. }
  assert (Hcases : disable_retrieval v = false ->
                   num_chunks v = Js.Null \/ num_chunks v = Js.Num (Js.of_Z 0)
                   \/ num_chunks v = Js.Str "" ->
                   chunk = Js.Num (Js.of_Z 10)).
  { intros H Hv. apply Hfalsy; [exact H |].
    destruct Hv as [-> | [-> | ->]]; reflexivity. }
  destruct (Js.string_truthy (finalPromptError e)) eqn:Herr.
  - apply string_truthy_spec in Herr.
    pose proof (onSubmit_blocked_run props io v e Herr) as Hrun.
    fold e' in Hrun. rewrite Hrun. cbn. split; [reflexivity |].
    exists chunk. rewrite app_nil_r. repeat split; assumption.
  - apply string_truthy_false in Herr.
    destruct (onSubmit_unblocked_run props io v e Herr)
      as (c & p & q & _ & Hchunk & _ & Hrun).
    fold e' chunk in Hrun, Hchunk.
    assert (Hlog : values e' = values e
                   /\ persisted_chunks (calls e') = persisted_chunks (calls e) ++ [chunk]).
    { rewrite Hrun.
      destruct (last_error_body p q) as [[| a body] |]; cbn;
        rewrite ?persisted_chunks_app, ?persisted_chunks_navigation, ?app_nil_r, Hchunk;
        split; reflexivity. }
    destruct Hlog as [Hvalues Hlog]. split; [exact Hvalues |].
    exists chunk. repeat split; assumption.
Qed.

Lemma onSubmit_effective_chunks_witness :
  persisted_chunks
    (calls (execState (onSubmit Sample.create_props Sample.all_ok Sample.support_bot)
              (Sample.editing Sample.support_bot)))
  = [Js.Num (Js.of_Z 10)].
Proof.
  destruct (onSubmit_effective_chunks Sample.create_props Sample.all_ok
              Sample.support_bot (Sample.editing Sample.support_bot))
    as (_ & chunk & Hlog & _ & _ & _ & Hnull).
  rewrite Hlog. cbn. f_equal. apply Hnull; [reflexivity | left; reflexivity].
Defined.

(** C1, as stated, fails: with retrieval enabled and a stored chunk count of
    [0], which is not [null], the count handed to [createPersona] is [10]. *)
Lemma onSubmit_effective_chunks_counterexample :
  let v := with_num_chunks (Js.Num (Js.of_Z 0)) Sample.support_bot in
  let e' := execState (onSubmit Sample.create_props Sample.all_ok v)
              (Sample.editing v) in
  disable_retrieval v = false
  /\ num_chunks v = Js.Num (Js.of_Z 0)
  /\ num_chunks v <> Js.Null
  /\ persisted_chunks (calls e') = [Js.Num (Js.of_Z 10)]
  /\ persisted_chunks (calls e') <> [num_chunks v]
  /\ persisted_chunks (calls e') <> [Js.nullish (num_chunks v) (Js.Num (Js.of_Z 10))].
Proof.
  cbv zeta. repeat split; try reflexivity; try discriminate.
Qed.

(** [||] and [??] agree on every stored value that is truthy or [null]:
    they differ on the number [0], on [NaN] and on the empty text. *)
Lemma or_nullish_agree (x fallback : Js.Value) :
  Js.truthy x = true \/ x = Js.Null -> Js.or x fallback = Js.nullish x fallback.
Proof.
  unfold Js.or. intros [Htruthy | ->]; [| reflexivity].
  rewrite Htruthy. destruct x; [discriminate Htruthy | reflexivity | reflexivity].
Qed.

(** C3: when the cross-field error is set, [onSubmit] stops at once: it
    raises the blocking error pop-up, makes no call at all to the outside (so
    none to [createPersona] or [updatePersona]) and leaves the draft and the
    rest of the editor as they were. *)
Theorem onSubmit_blocked
    (props : Props) (io : Collaborators) (v : Values) (e : Editor) :
  finalPromptError e <> "" ->
  let e' := execState (onSubmit props io v) e in
  popup e' = Some {| type := "error";
                     message := "Cannot submit while there are errors in the form!" |}
  /\ calls e' = calls e
  /\ values e' = values e
  /\ finalPrompt e' = finalPrompt e
  /\ finalPromptError e' = finalPromptError e
  /\ isSubmitting e' = isSubmitting e.
Proof.
  intros Herr e'. subst e'. rewrite (onSubmit_blocked_run props io v e Herr).
  repeat split.
Qed.

Lemma onSubmit_blocked_witness :
  let e := execState (validate_prompts Sample.unprompted)
             (Sample.editing Sample.unprompted) in
  let e' := execState (onSubmit Sample.create_props Sample.all_ok Sample.unprompted) e in
  finalPromptError e <> ""
  /\ option_map type (popup e') = Some "error"
  /\ calls e' = []
  /\ values e' = Sample.unprompted.
Proof.
  intros e e'.
  assert (Herr : finalPromptError e <> "") by (cbn; discriminate).
  split; [exact Herr |].
  destruct (onSubmit_blocked Sample.create_props Sample.all_ok Sample.unprompted e Herr)
    as (Hpopup & Hcalls & Hvalues & _).
  fold e' in Hpopup, Hcalls, Hvalues.
  rewrite Hpopup, Hcalls, Hvalues. repeat split.
Defined.

(** C4, as amended: when no cross-field error is set, one request goes to the
    persistence collaborator.  If the prompt response is ok and the persona
    response is absent or ok, the editor navigates away and shows no error.
    Otherwise the error body that is kept is the one of the last response
    that is not ok (the persona response's when both failed); when that body
    is not empty, there is no navigation, the pop-up shows
    "Failed to create Persona - " followed by the body, and submission is
    enabled again.  The draft is never changed. *)
Theorem onSubmit_outcome
    (props : Props) (io : Collaborators) (v : Values) (e : Editor) :
  finalPromptError e = "" ->
  let e' := execState (onSubmit props io v) e in
  exists (c : Call) (promptResponse : Response) (personaResponse : option Response),
    persistence_answer io c = Some (promptResponse, personaResponse)
    /\ is_navigation c = false
    /\ values e' = values e
    /\ (responses_ok promptResponse personaResponse = true ->
          calls e' = calls e
                     ++ [c; RouterPush ("/admin/personas?u="
                              ++ NilZero.string_of_int (Z.to_int (Date_now io)))]
          /\ popup e' = popup e)
    /\ (responses_ok promptResponse personaResponse = false ->
          exists body,
            last_error_body promptResponse personaResponse = Some body
            /\ (body <> "" ->
                  calls e' = calls e ++ [c]
                  /\ popup e' = Some {| type := "error";
                                        message := "Failed to create Persona - " ++ body |}
                  /\ isSubmitting e' = false)).
Proof.
  intros Herr e'.
  destruct (onSubmit_unblocked_run props io v e Herr)
    as (c & p & q & Hanswer & _ & Hnav & Hrun).
  fold e' in Hrun. exists c, p, q.
  split; [exact Hanswer |]. split; [exact Hnav |]. split; [| split].
  - rewrite Hrun. destruct (last_error_body p q) as [[| a body] |]; reflexivity.
  - intros Hok.
    assert (Hnone : last_error_body p q = None).
    { unfold responses_ok in Hok. apply andb_true_iff in Hok as [Hp Hq].
      unfold last_error_body. rewrite Hp. destruct q as [r |]; [| reflexivity].
      now rewrite Hq. }
    rewrite Hrun, Hnone. cbn. rewrite <- app_assoc. split; reflexivity.
  - intros Hfailed.
    assert (Hsome : exists body, last_error_body p q = Some body).
    { unfold responses_ok in Hfailed. unfold last_error_body.
      destruct q as [r |].
      - destruct (ok r); cbn; [| eauto].
        rewrite andb_true_r in Hfailed. rewrite Hfailed. cbn. eauto.
      - rewrite andb_true_r in Hfailed. rewrite Hfailed. cbn. eauto. }
    destruct Hsome as [body Hbody]. exists body. split; [exact Hbody |].
    intros Hnonempty. rewrite Hrun, Hbody.
    destruct body as [| a body]; [contradiction |]. repeat split.
Qed.

Lemma onSubmit_outcome_witness :
  let e' := execState (onSubmit Sample.create_props Sample.all_ok Sample.support_bot)
              (Sample.editing Sample.support_bot) in
  finalPromptError (Sample.editing Sample.support_bot) = ""
  /\ exists c, is_navigation c = false
               /\ calls e' = [c; RouterPush "/admin/personas?u=1700000000000"]
               /\ popup e' = None.
Proof.
  intros e'. split; [reflexivity |].
  destruct (onSubmit_outcome Sample.create_props Sample.all_ok Sample.support_bot
              (Sample.editing Sample.support_bot) eq_refl)
    as (c & p & q & Hanswer & Hnav & _ & Hok & _).
  exists c. split; [exact Hnav |].
  assert (Hp : responses_ok p q = true).
  { destruct c as [sp tp rd | request | request | url]; try discriminate Hanswer;
      cbn in Hanswer; injection Hanswer as <- <-; reflexivity. }
  destruct (Hok Hp) as [Hcalls Hpopup]. split; [exact Hcalls | exact Hpopup].
Defined.

(** C4, as stated, fails: when both responses are not ok, the message shown
    carries the body of the persona response, not the first error body
    encountered, which is the one of the prompt response. *)
Lemma onSubmit_outcome_counterexample :
  let promptResponse := Sample.failed "prompt rejected" in
  let personaResponse := Some (Sample.failed "persona rejected") in
  let io := Sample.answering Sample.ok_response promptResponse personaResponse in
  let e' := execState (onSubmit Sample.create_props io Sample.support_bot)
              (Sample.editing Sample.support_bot) in
  first_error_body promptResponse personaResponse = Some "prompt rejected"
  /\ option_map message (popup e')
     = Some "Failed to create Persona - persona rejected"
  /\ option_map message (popup e')
     <> Some ("Failed to create Persona - " ++ "prompt rejected")%string.
Proof.
  cbv zeta. split; [reflexivity |]. split; [reflexivity |]. discriminate.
Qed.

(** A response that is not ok and whose body is empty is taken for a success:
    the editor navigates away. *)
Lemma onSubmit_empty_error_body_navigates :
  let io := Sample.answering Sample.ok_response (Sample.failed "") None in
  let e' := execState (onSubmit Sample.create_props io Sample.support_bot)
              (Sample.editing Sample.support_bot) in
  responses_ok (Sample.failed "") None = false
  /\ existsb is_navigation (calls e') = true
  /\ popup e' = None.
Proof.
  cbv zeta. repeat split.
Qed.

(** ** The cross-field rule *)

Section CrossField.

(** What the callback answers, and the error it leaves, for any object the
    schema may hand to it. *)
Lemma system_prompt_or_task_prompt_run (c : Schema.Cast.t) (e : Editor) :
  let specified (p : option string) :=
    exists s, p = Some s /\ (0 < String.length s)%nat in
  (specified (Schema.Cast.system_prompt c) \/ specified (Schema.Cast.task_prompt c) ->
     runState (system_prompt_or_task_prompt c) e =
     (Some true, execState (setFinalPromptError "") e))
  /\ (~ (specified (Schema.Cast.system_prompt c)
         \/ specified (Schema.Cast.task_prompt c)) ->
        runState (system_prompt_or_task_prompt c) e =
        (None, execState
                 (setFinalPromptError
                    "Must provide at least one of System Prompt or Task Prompt") e)).
Proof.
  intros specified.
  assert (Hspec : forall p,
    specified p <->
    match p with
    | Some s => if Js.string_truthy s then 0 <? Z.of_nat (String.length s) else false
    | None => false
    end = true).
  { intros [[| a s] |]; cbn; split; intros H; try discriminate H.
    - destruct H as (s & Hs & Hlen). injection Hs as <-. simpl in Hlen. lia.
    - destruct H as (s' & Hs & Hlen). reflexivity.
    - exists (String a s). split; [reflexivity | simpl; lia].
    - destruct H as (s & Hs & _). discriminate Hs. }
  unfold system_prompt_or_task_prompt.
  split; intros H.
  - rewrite !Hspec, <- orb_true_iff in H. rewrite H. reflexivity.
  - rewrite !Hspec, <- orb_true_iff in H. apply not_true_is_false in H.
    rewrite H. reflexivity.
Qed.

Lemma prepared_specified (s : string) :
  (exists s', (if (s =? "")%string then None else Some s) = Some s'
              /\ (0 < String.length s')%nat)
  <-> (0 < String.length s)%nat.
Proof.
  destruct s as [| a s]; cbn; split.
  - intros (s' & H & _). discriminate H.
  - lia.
  - intros _. lia.
  - intros _. exists (String a s). split; [reflexivity | simpl; lia].
Qed.

End CrossField.

(** C2: the cross-field validation of a draft is valid exactly when the
    system prompt or the task prompt is non-empty.  When it is valid the
    callback answers [true] and clears the shared error; when both prompts
    are empty the callback sets the shared error and answers nothing, and
    that absent answer is read as a failure. *)
Theorem prompts_validation (v : Values) (e : Editor) :
  let answer :=
    evalState (system_prompt_or_task_prompt (Schema.prepareDataForValidation v)) e in
  let valid := evalState (validate_prompts v) e in
  let e' := execState (validate_prompts v) e in
  (valid = true <->
     (0 < String.length (system_prompt v))%nat
     \/ (0 < String.length (task_prompt v))%nat)
  /\ (valid = true -> answer = Some true /\ finalPromptError e' = "")
  /\ (system_prompt v = "" -> task_prompt v = "" -> valid = false)
  /\ (valid = false ->
        answer = None
        /\ Schema.test_passes answer = false
        /\ finalPromptError e' =
           "Must provide at least one of System Prompt or Task Prompt").
Proof.
  intros answer valid e'.
  destruct (system_prompt_or_task_prompt_run (Schema.prepareDataForValidation v) e)
    as [Hyes Hno].
  cbn [Schema.prepareDataForValidation Schema.Cast.system_prompt
       Schema.Cast.task_prompt] in Hyes, Hno.
  rewrite !prepared_specified in Hyes, Hno.
  assert (Hdec : {(0 < String.length (system_prompt v))%nat
                  \/ (0 < String.length (task_prompt v))%nat}
                 + {~ ((0 < String.length (system_prompt v))%nat
                       \/ (0 < String.length (task_prompt v))%nat)}).
  { destruct (system_prompt v); [destruct (task_prompt v) |]; simpl;
      [right; lia | left; lia | left; lia]. }
  assert (Hrun : runState (validate_prompts v) e =
                 (Schema.test_passes answer,
                  snd (runState (system_prompt_or_task_prompt
                                   (Schema.prepareDataForValidation v)) e))).
  { subst answer. unfold validate_prompts, evalState. cbn.
    destruct (runState _ e) as [r e1]. reflexivity. }
  assert (Hvalid : valid = Schema.test_passes answer).
  { subst valid. unfold evalState. now rewrite Hrun. }
  assert (Hstate : e' = snd (runState (system_prompt_or_task_prompt
                                         (Schema.prepareDataForValidation v)) e)).
  { subst e'. unfold execState. now rewrite Hrun. }
  destruct Hdec as [Hspecified | Hempty].
  - specialize (Hyes Hspecified).
    assert (Hanswer : answer = Some true).
    { subst answer. unfold evalState. now rewrite Hyes. }
    rewrite Hvalid, Hanswer, Hstate, Hyes. cbn.
    split; [tauto |]. split; [tauto |]. split.
    + intros Hs Ht. rewrite Hs, Ht in Hspecified. simpl in Hspecified. lia.
    + discriminate.
  - specialize (Hno Hempty).
    assert (Hanswer : answer = None).
    { subst answer. unfold evalState. now rewrite Hno. }
    rewrite Hvalid, Hanswer, Hstate, Hno. cbn.
    split; [split; [discriminate | tauto] |]. split; [discriminate |].
    split; [reflexivity |]. intros _. repeat split.
Qed.

Lemma prompts_validation_witness :
  evalState (validate_prompts Sample.support_bot)
    (Sample.editing Sample.support_bot) = true
  /\ evalState (validate_prompts Sample.unprompted)
       (Sample.editing Sample.unprompted) = false.
Proof.
  destruct (prompts_validation Sample.support_bot (Sample.editing Sample.support_bot))
    as (Hiff & _).
  destruct (prompts_validation Sample.unprompted (Sample.editing Sample.unprompted))
    as (_ & _ & Hempty & _).
  split.
  - apply Hiff. left. simpl. lia.
  - apply Hempty; reflexivity.
Defined.

(** ** The preview *)

(** C5: a preview request records one call to the builder.  When the builder
    answers ok, the preview is replaced by the returned final prompt template
    (and that template, when it is not empty, is the text displayed); when it
    answers not ok, the preview and the displayed text stay as they were.  In
    both cases nothing else in the editor changes: no pop-up is raised and
    the shared error is not touched. *)
Theorem triggerFinalPromptUpdate_outcome
    (io : Collaborators) (systemPrompt taskPrompt : string)
    (retrievalDisabled : bool) (e : Editor) :
  let response := buildFinalPrompt io systemPrompt taskPrompt retrievalDisabled in
  let e' := execState
              (triggerFinalPromptUpdate io systemPrompt taskPrompt retrievalDisabled) e in
  calls e' = calls e ++ [BuildFinalPrompt systemPrompt taskPrompt retrievalDisabled]
  /\ (ok response = true ->
        finalPrompt e' = final_prompt_template response
        /\ forall template,
             final_prompt_template response = Some template -> template <> "" ->
             displayedFinalPrompt e' = template)
  /\ (ok response = false ->
        finalPrompt e' = finalPrompt e
        /\ displayedFinalPrompt e' = displayedFinalPrompt e)
  /\ popup e' = popup e
  /\ finalPromptError e' = finalPromptError e
  /\ values e' = values e
  /\ isSubmitting e' = isSubmitting e.
Proof.
  intros response e'. subst e'.
  unfold triggerFinalPromptUpdate, execState. cbn. fold response.
  destruct (ok response) eqn:Hok; cbn.
  - split; [reflexivity |]. split.
    + intros _. split; [reflexivity |].
      intros template Htemplate Hnonempty.
      unfold displayedFinalPrompt. cbn. rewrite Htemplate.
      apply string_truthy_spec in Hnonempty. now rewrite Hnonempty.
    + split; [discriminate |]. repeat split.
  - split; [reflexivity |]. split; [discriminate |]. repeat split.
Qed.

Lemma triggerFinalPromptUpdate_outcome_witness :
  let shown := execState
                 (triggerFinalPromptUpdate Sample.all_ok "You are helpful." "" false)
                 (Sample.editing Sample.support_bot) in
  let stale := execState
                 (triggerFinalPromptUpdate
                    (Sample.answering (Sample.failed "down") Sample.ok_response None)
                    "You are helpful!" "" false)
                 shown in
  displayedFinalPrompt shown = "X" /\ displayedFinalPrompt stale = "X".
Proof.
  intros shown stale.
  destruct (triggerFinalPromptUpdate_outcome Sample.all_ok "You are helpful." "" false
              (Sample.editing Sample.support_bot)) as (_ & Hok & _).
  destruct (triggerFinalPromptUpdate_outcome
              (Sample.answering (Sample.failed "down") Sample.ok_response None)
              "You are helpful!" "" false shown) as (_ & _ & Hfailed & _).
  assert (Hshown : displayedFinalPrompt shown = "X").
  { apply (proj2 (Hok eq_refl)); [reflexivity | discriminate]. }
  split; [exact Hshown |].
  fold stale in Hfailed. rewrite (proj2 (Hfailed eq_refl)). exact Hshown.
Defined.

(** ** The chunk-count rule of the schema *)

(** C6, as amended: the schema accepts [null], and accepts a number exactly
    when it is not [NaN] and at most [20]; there is no lower bound and no
    integrality test.  For integers that is [z <= 20], so that among the
    non-negative integers, the only numbers the change handler of the field
    lets through, the accepted ones are those of the interval [0, 20]. *)
Theorem num_chunks_schema_accepts :
  (forall v : option Js.Number,
     Schema.validate_number Schema.num_chunks v = true <->
     match v with
     | None => True
     | Some Js.NaN => False
     | Some (Js.Infinity negative) => negative = true
     | Some (Js.Finite q) => (q <= 20)%Q
     end)
  /\ (forall z : Z,
        Schema.validate_number Schema.num_chunks (Some (Js.of_Z z)) = true <-> z <= 20)
  /\ (forall z : Z, 0 <= z ->
        (Schema.validate_number Schema.num_chunks (Some (Js.of_Z z)) = true <->
         null_or_integer_0_20 (Some (Js.of_Z z)))).
Proof.
  assert (Hz : forall z : Z,
    Schema.validate_number Schema.num_chunks (Some (Js.of_Z z)) = true <-> z <= 20).
  { intros z. cbn. rewrite Qle_bool_iff. unfold Qle. cbn. lia. }
  split; [| split].
  - intros [[| [|] | q] |]; cbn.
    + split; [discriminate | tauto].
    + tauto.
    + split; discriminate.
    + apply Qle_bool_iff.
    + tauto.
  - exact Hz.
  - intros z Hnonneg. rewrite Hz. unfold null_or_integer_0_20.
    assert (Hint : Js.is_integer (Js.of_Z z) = true).
    { unfold Js.is_integer, Js.of_Z. apply Qeq_bool_iff. now rewrite Qfloor_Z. }
    assert (Hlow : Js.number_le (Js.of_Z 0) (Js.of_Z z) = true).
    { cbn. apply Qle_bool_iff. unfold Qle. cbn. lia. }
    assert (Hhigh : Js.number_le (Js.of_Z z) (Js.of_Z 20) = true <-> z <= 20).
    { cbn. rewrite Qle_bool_iff. unfold Qle. cbn. lia. }
    rewrite Hhigh. tauto.
Qed.

Lemma num_chunks_schema_accepts_witness :
  Schema.validate_number Schema.num_chunks (Some (Js.of_Z 20)) = true
  /\ Schema.validate_number Schema.num_chunks (Some (Js.of_Z 21)) <> true
  /\ null_or_integer_0_20 (Some (Js.of_Z 7)).
Proof.
  destruct num_chunks_schema_accepts as (_ & Hz & Hrange).
  split; [| split].
  - apply Hz. lia.
  - rewrite Hz. lia.
  - apply (Hrange 7); [lia |]. apply Hz. lia.
Defined.

(** C6, as stated, fails: the schema accepts [-1], and it accepts [2.5],
    neither of which is an integer of the interval [0, 20]. *)
Lemma num_chunks_schema_counterexample :
  Schema.validate_number Schema.num_chunks (Some (Js.of_Z (-1))) = true
  /\ ~ null_or_integer_0_20 (Some (Js.of_Z (-1)))
  /\ Schema.validate_number Schema.num_chunks (Some (Js.Finite (5 # 2))) = true
  /\ ~ null_or_integer_0_20 (Some (Js.Finite (5 # 2))).
Proof.
  split; [reflexivity |]. split.
  - intros (_ & Hlow & _). discriminate Hlow.
  - split; [reflexivity |]. intros (Hint & _). discriminate Hint.
Qed.

(** ** Starter messages *)

(** C9: "Add New" appends one entry at the end of the starter messages (an
    absent collection counting as empty), and leaves the entries already
    there in place.  The entry appended is the empty string: it is not the
    blank template, and its [name], [description] and [message] are
    undefined rather than empty strings. *)
Theorem starterMessage_addNew_entry (e : Editor) :
  let e' := execState starterMessage_addNew e in
  starter_messages (values e') =
    Some (match starter_messages (values e) with
          | Some entries => entries
          | None => []
          end ++ [EntryString ""])
  /\ EntryString "" <> EntryObject blank_template
  /\ entry_name (EntryString "") = None
  /\ entry_description (EntryString "") = None
  /\ entry_message (EntryString "") = None
  /\ entry_name (EntryObject blank_template) = Some "".
Proof.
  intros e'. subst e'. unfold starterMessage_addNew, execState. cbn.
  split.
  - destruct (starter_messages (values e)); reflexivity.
  - split; [discriminate | repeat split].
Qed.

(** ** Scenarios *)

(** Create mode, "Support Bot" with a system prompt only: the draft is valid,
    the chunk count sent is [10], and the editor navigates away. *)
Example scenario_create_support_bot :
  let e := execState (validate_prompts Sample.support_bot)
             (Sample.editing Sample.support_bot) in
  let e' := execState (onSubmit Sample.create_props Sample.all_ok Sample.support_bot) e in
  finalPromptError e = ""
  /\ persisted_chunks (calls e') = [Js.Num (Js.of_Z 10)]
  /\ existsb is_navigation (calls e') = true.
Proof. cbv zeta. repeat split. Qed.

(** The same draft with both prompts empty: the cross-field error is set and
    the submission makes no call. *)
Example scenario_create_unprompted :
  let e := execState (validate_prompts Sample.unprompted)
             (Sample.editing Sample.unprompted) in
  let e' := execState (onSubmit Sample.create_props Sample.all_ok Sample.unprompted) e in
  finalPromptError e = "Must provide at least one of System Prompt or Task Prompt"
  /\ calls e' = []
  /\ option_map message (popup e')
     = Some "Cannot submit while there are errors in the form!".
Proof. cbv zeta. repeat split. Qed.

(** Update mode on a persona saved with [num_chunks = 0]: the draft starts
    with retrieval disabled, and the update carries the identifiers of the
    persona and of its first prompt, with a chunk count of [0]. *)
Example scenario_update_retrieval_disabled :
  let v := initialValues Sample.update_props in
  let e' := execState (onSubmit Sample.update_props Sample.all_ok v)
              (mounted Sample.update_props) in
  disable_retrieval v = true
  /\ document_set_ids v = [1]
  /\ calls e' =
       [UpdatePersona {| id := 7;
                         existingPromptId := Some 12;
                         update_fields := with_num_chunks (Js.Num (Js.of_Z 0)) v |};
        RouterPush "/admin/personas?u=1700000000000"].
Proof. cbv zeta. repeat split. Qed.

(** Removing a starter message is positional. *)
Example scenario_remove_second_starter_message :
  let v := with_starter_messages
             (Some [Sample.entry "A"; Sample.entry "B"; Sample.entry "C"])
             Sample.support_bot in
  starter_messages (values (execState (starterMessage_remove 1) (Sample.editing v)))
  = Some [Sample.entry "A"; Sample.entry "C"].
Proof. reflexivity. Qed.

(** Whatever the draft, empty prompts block the submission that follows the
    validation. *)
Lemma empty_prompts_block_submission
    (props : Props) (io : Collaborators) (v : Values) (e : Editor) :
  system_prompt v = "" -> task_prompt v = "" ->
  let checked := execState (validate_prompts v) e in
  evalState (validate_prompts v) e = false
  /\ calls (execState (onSubmit props io v) checked) = calls e.
Proof.
  intros Hs Ht checked.
  assert (Hrun : runState (validate_prompts v) e =
                 (false, execState
                           (setFinalPromptError
                              "Must provide at least one of System Prompt or Task Prompt")
                           e)).
  { unfold validate_prompts, Schema.prepareDataForValidation.
    rewrite Hs, Ht. reflexivity. }
  unfold evalState. subst checked. unfold execState at 2. rewrite Hrun. cbn [fst snd].
  split; [reflexivity |].
  rewrite onSubmit_blocked_run by (cbn; discriminate). reflexivity.
Qed.

(** * Further properties *)

(** ** More on the document-set chips *)

Lemma chip_isSelected_spec (v : Values) (documentSet : DocumentSet.t) :
  chip_isSelected v documentSet = true <->
  In (DocumentSet.id documentSet) (document_set_ids v).
Proof.
  unfold chip_isSelected. rewrite negb_true_iff, Z.eqb_neq.
  apply indexOf_found_iff.
Qed.

(** Where [indexOf] points, and what the splice at that position leaves. *)
Lemma splice_at_indexOf (l : list Z) (x : Z) :
  In x l ->
  exists before after,
    l = before ++ x :: after
    /\ ~ In x before
    /\ splice_one (indexOf l x) l = before ++ after.
Proof.
  intros Hin.
  assert (Hgen : forall i, 0 <= i ->
            exists before after,
              l = before ++ x :: after /\ ~ In x before
              /\ indexOf_from l x i = i + Z.of_nat (length before)).
  { induction l as [| y rest IH]; [destruct Hin |].
    intros i Hi. cbn [indexOf_from].
    destruct (Z.eqb_spec y x) as [-> | Hne].
    - exists [], rest. cbn. repeat split; [tauto | lia].
    - destruct Hin as [Heq | Hin]; [contradiction |].
      destruct (IH Hin (i + 1)) as (before & after & Hl & Hout & Hidx); [lia |].
      exists (y :: before), after. rewrite Hl at 1. cbn [app length].
      repeat split.
      + intros [Heq | Hb]; [contradiction | now apply Hout].
      + rewrite Hidx. lia. }
  destruct (Hgen 0) as (before & after & Hl & Hout & Hidx); [lia |].
  exists before, after. split; [exact Hl |]. split; [exact Hout |].
  unfold indexOf, splice_one. rewrite Hidx.
  destruct (Z.ltb_spec (0 + Z.of_nat (length before)) 0) as [Hneg | _]; [lia |].
  rewrite Hl at 1 2. rewrite length_app. cbn [length].
  rewrite Z.min_l by lia. replace (0 + Z.of_nat (length before)) with
    (Z.of_nat (length before)) by lia. rewrite Nat2Z.id.
  clear. induction before as [| y rest IH]; cbn; [reflexivity | now rewrite IH].
Qed.


Lemma remove_split_NoDup (before after : list Z) (x : Z) :
  NoDup (before ++ x :: after) ->
  remove Z.eq_dec x (before ++ x :: after) = before ++ after
  /\ ~ In x (before ++ after).
Proof.
  intros Hnd. apply NoDup_remove in Hnd as [_ Hout].
  split; [| exact Hout].
  rewrite remove_app. cbn. destruct (Z.eq_dec x x) as [_ | Hne]; [| contradiction].
  rewrite !notin_remove; [reflexivity | |];
    intros Hin; apply Hout, in_or_app; [now right | now left].
Qed.


(** X1: on a duplicate-free collection, a click on a chip flips the selection
    of that chip, and of no other: the chip of any other identifier is
    selected after the click exactly when it was before. *)
Theorem documentSet_onClick_flips (documentSet : DocumentSet.t) (e : Editor) :
  NoDup (document_set_ids (values e)) ->
  let e' := execState (documentSet_onClick documentSet) e in
  chip_isSelected (values e') documentSet = negb (chip_isSelected (values e) documentSet)
  /\ forall other : DocumentSet.t,
       DocumentSet.id other <> DocumentSet.id documentSet ->
       chip_isSelected (values e') other = chip_isSelected (values e) other.
Proof.
  intros Hnd e'.
  assert (Hbool : forall a b : bool, (a = true <-> b = true) -> a = b).
  { intros [|] [|] H; try reflexivity; [symmetry; now apply H | now apply H]. }
  assert (Hids : document_set_ids (values e') =
                 if in_dec Z.eq_dec (DocumentSet.id documentSet) (document_set_ids (values e))
                 then splice_one
                        (indexOf (document_set_ids (values e)) (DocumentSet.id documentSet))
                        (document_set_ids (values e))
                 else document_set_ids (values e) ++ [DocumentSet.id documentSet])
    by apply documentSet_onClick_values.
  destruct (in_dec Z.eq_dec (DocumentSet.id documentSet) (document_set_ids (values e)))
    as [Hin | Hout].
  - destruct (splice_at_indexOf _ _ Hin) as (before & after & Hl & _ & Hsplice).
    rewrite Hsplice in Hids. rewrite Hl in Hnd.
    destruct (remove_split_NoDup before after _ Hnd) as [_ Hgone].
    split.
    + apply Hbool. rewrite negb_true_iff, <- not_true_iff_false, !chip_isSelected_spec.
      rewrite Hids. tauto.
    + intros other Hother. apply Hbool. rewrite !chip_isSelected_spec, Hids, Hl.
      rewrite !in_app_iff. cbn. intuition congruence.
  - split.
    + apply Hbool. rewrite negb_true_iff, <- not_true_iff_false, !chip_isSelected_spec.
      rewrite Hids, in_app_iff. cbn. tauto.
    + intros other Hother. apply Hbool. rewrite !chip_isSelected_spec, Hids.
      rewrite in_app_iff. cbn. intuition congruence.
Qed.

Lemma documentSet_onClick_flips_witness :
  NoDup [1; 2]
  /\ chip_isSelected
       (values (execState (documentSet_onClick Sample.wiki)
                  (Sample.editing Sample.support_bot))) Sample.wiki = false
  /\ chip_isSelected
       (values (execState (documentSet_onClick Sample.wiki)
                  (Sample.editing Sample.support_bot))) Sample.handbook = true.
Proof.
  assert (Hnd : NoDup (document_set_ids (values (Sample.editing Sample.support_bot)))).
  { simpl. repeat constructor; simpl; intuition discriminate. }
  split; [exact Hnd |].
  destruct (documentSet_onClick_flips Sample.wiki (Sample.editing Sample.support_bot) Hnd)
    as [Hflip Hothers].
  split; [exact Hflip |].
  rewrite (Hothers Sample.handbook); [reflexivity | discriminate].
Defined.





(** ** More on starter messages *)

Lemma remove_nth_in_range {A : Type} (n : nat) (l : list A) :
  (n < length l)%nat ->
  remove_nth n l = firstn n l ++ skipn (S n) l
  /\ S (length (remove_nth n l)) = length l.
Proof.
  revert n. induction l as [| y rest IH]; intros n Hn; [cbn in Hn; lia |].
  destruct n as [| k]; cbn.
  - split; reflexivity.
  - cbn in Hn. destruct (IH k) as [Heq Hlen]; [lia |].
    change (skipn (S k) rest) with (skipn (S k) rest) in Heq.
    rewrite Heq at 1. split; [reflexivity | now rewrite Hlen].
Qed.

Lemma remove_nth_out_of_range {A : Type} (n : nat) (l : list A) :
  (length l <= n)%nat -> remove_nth n l = l.
Proof.
  revert n. induction l as [| y rest IH]; intros n Hn; [now destruct n |].
  destruct n as [| k]; cbn in *; [lia |]. rewrite IH by lia. reflexivity.
Qed.

Lemma starterMessage_rows_spec (v : Values) (index : Z) :
  In index (starterMessage_rows v) <->
  exists entries, starter_messages v = Some entries
                  /\ 0 <= index < Z.of_nat (length entries).
Proof.
  unfold starterMessage_rows. destruct (starter_messages v) as [entries |].
  - destruct (Z.ltb_spec 0 (Z.of_nat (length entries))) as [Hpos | Hempty].
    + rewrite in_map_iff. split.
      * intros (n & <- & Hn). apply in_seq in Hn. exists entries. split; [reflexivity | lia].
      * intros (entries' & Heq & Hrange). injection Heq as <-.
        exists (Z.to_nat index). split; [lia |]. apply in_seq. lia.
    + split; [intros [] |]. intros (entries' & Heq & Hrange). injection Heq as <-. lia.
  - split; [intros [] |]. intros (entries' & Heq & _). discriminate Heq.
Qed.

Lemma starterMessage_remove_run (index : Z) (e : Editor) :
  execState (starterMessage_remove index) e =
  {| values :=
       with_starter_messages
         (Some (arrayHelpers_remove (starter_messages (values e)) index)) (values e);
     finalPrompt := finalPrompt e;
     finalPromptError := finalPromptError e;
     popup := popup e;
     isSubmitting := isSubmitting e;
     calls := calls e |}.
Proof. reflexivity. Qed.

(** X4: the cross of a row that is rendered removes that row and no other:
    the entries before it and after it stay, in their order, so the
    collection is one entry shorter; nothing is compared, entries with equal
    content are not confused. *)
Theorem starterMessage_remove_positional (index : Z) (e : Editor) :
  In index (starterMessage_rows (values e)) ->
  exists entries,
    starter_messages (values e) = Some entries
    /\ starter_messages (values (execState (starterMessage_remove index) e))
       = Some (firstn (Z.to_nat index) entries ++ skipn (S (Z.to_nat index)) entries)
    /\ starterMessage_rows (values (execState (starterMessage_remove index) e))
       = map Z.of_nat (seq 0 (length entries - 1)).
Proof.
  intros Hrow. apply starterMessage_rows_spec in Hrow as (entries & Hentries & Hrange).
  exists entries. split; [exact Hentries |].
  rewrite starterMessage_remove_run. unfold starterMessage_rows.
  cbn [values starter_messages with_starter_messages]. rewrite Hentries.
  unfold arrayHelpers_remove, splice_one.
  destruct (Z.ltb_spec index 0) as [Hneg | _]; [lia |].
  rewrite Z.min_l by lia.
  destruct (remove_nth_in_range (Z.to_nat index) entries) as [Heq Hlen]; [lia |].
  split; [now rewrite Heq |].
  replace (length (remove_nth (Z.to_nat index) entries)) with (length entries - 1)%nat by lia.
  destruct (Z.ltb_spec 0 (Z.of_nat (length entries - 1))) as [_ | Hzero]; [reflexivity |].
  replace (length entries - 1)%nat with 0%nat by lia. reflexivity.
Qed.

Lemma starterMessage_remove_positional_witness :
  let v := with_starter_messages
             (Some [Sample.entry "A"; Sample.entry "B"; Sample.entry "A"])
             Sample.support_bot in
  In 0 (starterMessage_rows v)
  /\ starter_messages (values (execState (starterMessage_remove 0) (Sample.editing v)))
     = Some [Sample.entry "B"; Sample.entry "A"].
Proof.
  intros v.
  assert (Hrow : In 0 (starterMessage_rows (values (Sample.editing v)))).
  { cbn. now left. }
  split; [exact Hrow |].
  destruct (starterMessage_remove_positional 0 (Sample.editing v) Hrow)
    as (entries & Hentries & Hremoved & _).
  cbn in Hentries. injection Hentries as <-. exact Hremoved.
Defined.

(** X5: "Add New" followed by the cross of the row it added gives back the
    entries there were and the rows that were rendered; but a collection that
    was [null] is then the empty array, not [null] again. *)
Theorem starterMessage_add_then_remove (e : Editor) :
  let added := execState starterMessage_addNew e in
  let entries := match starter_messages (values e) with
                 | Some entries => entries
                 | None => []
                 end in
  let new_row := Z.of_nat (length entries) in
  let removed := execState (starterMessage_remove new_row) added in
  In new_row (starterMessage_rows (values added))
  /\ starter_messages (values removed) = Some entries
  /\ starterMessage_rows (values removed) = starterMessage_rows (values e)
  /\ (starter_messages (values e) = None ->
        starter_messages (values removed) = Some []
        /\ starter_messages (values removed) <> starter_messages (values e)).
Proof.
  intros added entries new_row removed.
  assert (Hadded : starter_messages (values added) = Some (entries ++ [EntryString ""])).
  { subst added entries. unfold starterMessage_addNew, execState. cbn.
    destruct (starter_messages (values e)); reflexivity. }
  assert (Hremoved : starter_messages (values removed) = Some entries).
  { subst removed. rewrite starterMessage_remove_run.
    cbn [values starter_messages with_starter_messages]. rewrite Hadded.
    unfold arrayHelpers_remove. subst new_row. now rewrite splice_one_appended. }
  split.
  - apply starterMessage_rows_spec. exists (entries ++ [EntryString ""]).
    split; [exact Hadded |]. rewrite length_app. cbn. lia.
  - split; [exact Hremoved |]. split.
    + unfold starterMessage_rows. rewrite Hremoved. subst entries.
      destruct (starter_messages (values e)) as [l |]; reflexivity.
    + intros Hnull. subst entries. rewrite Hnull in *. rewrite Hremoved.
      split; [reflexivity | discriminate].
Qed.

(** X6: [n] clicks on "Add New" append [n] entries, all of them the empty
    string: nothing is deduplicated, and the entries that were there stay in
    front. *)
Theorem starterMessage_addNew_repeated (n : nat) (e : Editor) :
  starter_messages
    (values (after_all (fun _ : unit => starterMessage_addNew) (repeat tt n) e))
  = if (n =? 0)%nat then starter_messages (values e)
    else Some (match starter_messages (values e) with
               | Some entries => entries
               | None => []
               end ++ repeat (EntryString "") n).
Proof.
  unfold after_all. revert e. induction n as [| k IH]; intros e; [reflexivity |].
  cbn [repeat fold_left]. rewrite IH.
  unfold starterMessage_addNew, execState. cbn.
  destruct k as [| k']; cbn [Nat.eqb].
  - destruct (starter_messages (values e)); reflexivity.
  - f_equal. destruct (starter_messages (values e)) as [entries |]; cbn [arrayHelpers_push].
    + rewrite <- app_assoc. reflexivity.
    + reflexivity.
Qed.

Lemma starterMessage_add_then_remove_witness :
  starter_messages
    (values (execState (starterMessage_remove 0)
               (execState starterMessage_addNew (Sample.editing Sample.support_bot))))
  = Some [].
Proof.
  destruct (starterMessage_add_then_remove (Sample.editing Sample.support_bot))
    as (_ & _ & _ & Hnull).
  apply Hnull. reflexivity.
Defined.

(** ** Sequences of events *)

Lemma after_all_snoc {A : Type} (handle : A -> Handler unit)
    (events : list A) (event : A) (e : Editor) :
  after_all handle (events ++ [event]) e
  = execState (handle event) (after_all handle events e).
Proof. unfold after_all. rewrite fold_left_app. reflexivity. Qed.


Lemma last_ok_template_snoc (responses : list Response) (response : Response) :
  last_ok_template (responses ++ [response])
  = if ok response then Some (final_prompt_template response)
    else last_ok_template responses.
Proof. unfold last_ok_template. rewrite fold_left_app. reflexivity. Qed.

(** ** More on the chunk-count field *)




(** ** The preview and the fields it depends on *)

Section PreviewFacts.

Variable io : Collaborators.

(** The whole effect of an edit of one of the three inputs: the field is
    set, the request is logged, the answer is applied. *)
Lemma preview_edit_run (edit : PreviewEdit) (e : Editor) :
  let v' := match edit with
            | EditSystemPrompt text => with_system_prompt text (values e)
            | EditTaskPrompt text => with_task_prompt text (values e)
            | CheckDisableRetrieval checked => with_disable_retrieval checked (values e)
            end in
  execState (preview_edit io edit) e =
  {| values := v';
     finalPrompt := if ok (preview_answer io v')
                    then final_prompt_template (preview_answer io v')
                    else finalPrompt e;
     finalPromptError := finalPromptError e;
     popup := popup e;
     isSubmitting := isSubmitting e;
     calls := calls e ++ [preview_request v'] |}.
Proof.
  destruct edit as [text | text | checked]; cbv zeta;
    unfold preview_edit, system_prompt_onChange, task_prompt_onChange,
      disable_retrieval_onChange, triggerFinalPromptUpdate, execState,
      preview_answer, preview_request;
    cbn;
    match goal with
    | |- context [ok ?r] => destruct (ok r)
    end; reflexivity.
Qed.

End PreviewFacts.



(** X10: ticking "Disable Retrieval" hides the three retrieval-only parts of
    the form but keeps what they hold: the stored chunk count and the
    selected document sets are not cleared, and unticking the box gives back
    the draft exactly as it was.  Each of the two changes requests a
    preview. *)
Theorem disable_retrieval_keeps_fields (io : Collaborators) (e : Editor) :
  disable_retrieval (values e) = false ->
  let ticked := execState (disable_retrieval_onChange io true) e in
  let unticked := execState (disable_retrieval_onChange io false) ticked in
  showIncludeCitations (values ticked) = false
  /\ showDocumentSets (values ticked) = false
  /\ showRetrievalCustomization (values ticked) = false
  /\ num_chunks (values ticked) = num_chunks (values e)
  /\ document_set_ids (values ticked) = document_set_ids (values e)
  /\ values unticked = values e
  /\ calls unticked =
       calls e ++ [BuildFinalPrompt (system_prompt (values e)) (task_prompt (values e)) true;
                   BuildFinalPrompt (system_prompt (values e)) (task_prompt (values e)) false].
Proof.
  intros Hretrieval ticked unticked.
  assert (Hticked : ticked = execState (preview_edit io (CheckDisableRetrieval true)) e)
    by reflexivity.
  assert (Hunticked : unticked
                      = execState (preview_edit io (CheckDisableRetrieval false)) ticked)
    by reflexivity.
  rewrite preview_edit_run in Hticked. rewrite preview_edit_run in Hunticked.
  rewrite Hunticked, Hticked. cbn [values calls]. unfold preview_request.
  cbn. rewrite <- app_assoc. repeat split.
  destruct (values e) as [n d sp tp dr ids nc ic rf mo sm]. cbn in Hretrieval.
  subst dr. reflexivity.
Qed.

Lemma disable_retrieval_keeps_fields_witness :
  let ticked := execState (disable_retrieval_onChange Sample.all_ok true)
                  (Sample.editing Sample.support_bot) in
  disable_retrieval Sample.support_bot = false
  /\ showDocumentSets (values ticked) = false
  /\ document_set_ids (values ticked) = [1; 2].
Proof.
  intros ticked. split; [reflexivity |].
  destruct (disable_retrieval_keeps_fields Sample.all_ok
              (Sample.editing Sample.support_bot) eq_refl)
    as (_ & Hhidden & _ & _ & Hids & _).
  split; [exact Hhidden | exact Hids].
Defined.

(** X11: [triggerFinalPromptUpdate] is the logged request followed by what
    it does after its [await]; and when several answers come back, whatever
    the order the requests were made in, the preview ends as the template of
    the last answer to arrive that is ok (or as it was, when none is ok).
    Answers change nothing else. *)
Theorem preview_last_arrival_wins
    (io : Collaborators) (responses : list Response) (e : Editor) :
  let e' := after_all triggerFinalPromptUpdate_resume responses e in
  (forall systemPrompt taskPrompt retrievalDisabled state,
     execState (triggerFinalPromptUpdate io systemPrompt taskPrompt retrievalDisabled) state
     = execState
         (triggerFinalPromptUpdate_resume
            (buildFinalPrompt io systemPrompt taskPrompt retrievalDisabled))
         (execState (call (BuildFinalPrompt systemPrompt taskPrompt retrievalDisabled))
            state))
  /\ finalPrompt e' = match last_ok_template responses with
                      | Some template => template
                      | None => finalPrompt e
                      end
  /\ values e' = values e
  /\ calls e' = calls e
  /\ finalPromptError e' = finalPromptError e
  /\ popup e' = popup e
  /\ isSubmitting e' = isSubmitting e.
Proof.
  intros e'. split.
  - intros sp tp rd state.
    unfold triggerFinalPromptUpdate, triggerFinalPromptUpdate_resume, execState. cbn.
    destruct (ok (buildFinalPrompt io sp tp rd)); reflexivity.
  - subst e'. induction responses as [| response responses IH] using rev_ind.
    + repeat split.
    + rewrite after_all_snoc, last_ok_template_snoc.
      destruct IH as (Hfp & Hv & Hcalls & Hfpe & Hpp & Hsub).
      unfold triggerFinalPromptUpdate_resume, execState.
      destruct (ok response); cbn; repeat split; assumption.
Qed.

Lemma preview_last_arrival_wins_witness :
  let later := {| ok := true; text := ""; final_prompt_template := Some "later" |} in
  let earlier := {| ok := true; text := ""; final_prompt_template := Some "earlier" |} in
  finalPrompt (after_all triggerFinalPromptUpdate_resume
                 [later; Sample.failed "down"; earlier]
                 (Sample.editing Sample.support_bot))
  = Some "earlier".
Proof.
  intros later earlier.
  destruct (preview_last_arrival_wins Sample.all_ok
              [later; Sample.failed "down"; earlier]
              (Sample.editing Sample.support_bot)) as (_ & Hfp & _).
  exact Hfp.
Defined.

(** ** More on submission *)

(** The state a submission that is not blocked ends in, with the request it
    made. *)
Lemma onSubmit_unblocked_state
    (props : Props) (io : Collaborators) (v : Values) (e : Editor)
    (promptResponse : Response) (personaResponse : option Response) :
  finalPromptError e = "" ->
  persistence_answer io (persistence_request props v (effective_chunks v))
    = Some (promptResponse, personaResponse) ->
  execState (onSubmit props io v) e =
  match last_error_body promptResponse personaResponse with
  | Some (String _ _ as body) =>
      {| values := values e;
         finalPrompt := finalPrompt e;
         finalPromptError := finalPromptError e;
         popup := Some {| type := "error";
                          message := "Failed to create Persona - " ++ body |};
         isSubmitting := false;
         calls := calls e ++ [persistence_request props v (effective_chunks v)] |}
  | _ =>
      {| values := values e;
         finalPrompt := finalPrompt e;
         finalPromptError := finalPromptError e;
         popup := popup e;
         isSubmitting := true;
         calls := calls e ++ [persistence_request props v (effective_chunks v);
                              RouterPush (personas_url io)] |}
  end.
Proof.
  intros Herr Hanswer. apply string_truthy_false in Herr.
  unfold persistence_request, effective_chunks, personas_url in *.
  unfold onSubmit, existingPrompt, execState. cbn. rewrite Herr. cbn.
  destruct (existingPersona props) as [persona |]; cbn in Hanswer |- *;
    injection Hanswer as Hanswer; rewrite Hanswer; cbn;
    unfold last_error_body;
    destruct personaResponse as [r |]; [destruct (ok r) | | destruct (ok r) |];
    destruct (ok promptResponse); cbn;
    repeat match goal with
           | |- context [text ?x] => destruct (text x); cbn
           end;
    rewrite <- ?app_assoc; reflexivity.
Qed.





(** X14: after a submission that failed with a non-empty error body, nothing
    is retried by the editor, and a second submission of the draft makes the
    same request again: the draft, the preview and the cross-field error are
    those of before the first attempt, and the button is enabled. *)
Theorem resubmission_repeats_request
    (props : Props) (io : Collaborators) (v : Values) (e : Editor)
    (promptResponse : Response) (personaResponse : option Response) (body : string) :
  finalPromptError e = "" ->
  persistence_answer io (persistence_request props v (effective_chunks v))
    = Some (promptResponse, personaResponse) ->
  last_error_body promptResponse personaResponse = Some body ->
  body <> "" ->
  let first := execState (onSubmit props io v) e in
  let second := execState (onSubmit props io v) first in
  calls first = calls e ++ [persistence_request props v (effective_chunks v)]
  /\ calls second = calls e ++ [persistence_request props v (effective_chunks v);
                                persistence_request props v (effective_chunks v)]
  /\ values second = values e
  /\ finalPrompt second = finalPrompt e
  /\ submitDisabled second = false
  /\ popup second = popup first.
Proof.
  intros Herr Hanswer Hbody Hnonempty first second.
  assert (Hfirst : first =
    {| values := values e;
       finalPrompt := finalPrompt e;
       finalPromptError := finalPromptError e;
       popup := Some {| type := "error";
                        message := "Failed to create Persona - " ++ body |};
       isSubmitting := false;
       calls := calls e ++ [persistence_request props v (effective_chunks v)] |}).
  { subst first. rewrite (onSubmit_unblocked_state props io v e _ _ Herr Hanswer), Hbody.
    destruct body; [contradiction | reflexivity]. }
  assert (Herr1 : finalPromptError first = "") by now rewrite Hfirst.
  assert (Hsecond : second = execState (onSubmit props io v) first) by reflexivity.
  rewrite (onSubmit_unblocked_state props io v first _ _ Herr1 Hanswer), Hbody in Hsecond.
  destruct body as [| a body]; [contradiction |].
  rewrite Hsecond, Hfirst. cbn. rewrite <- app_assoc. repeat split.
Qed.

Lemma resubmission_repeats_request_witness :
  let io := Sample.answering Sample.ok_response (Sample.failed "name taken") None in
  let first := execState (onSubmit Sample.create_props io Sample.support_bot)
                 (Sample.editing Sample.support_bot) in
  let second := execState (onSubmit Sample.create_props io Sample.support_bot) first in
  length (calls second) = 2%nat /\ submitDisabled second = false.
Proof.
  intros io first second.
  assert (Hne : "name taken" <> "") by discriminate.
  destruct (resubmission_repeats_request Sample.create_props io Sample.support_bot
              (Sample.editing Sample.support_bot)
              (Sample.failed "name taken") None "name taken"
              eq_refl eq_refl eq_refl Hne)
    as (_ & Hcalls & _ & _ & Hsub & _).
  fold first second in Hcalls, Hsub. rewrite Hcalls. split; [reflexivity | exact Hsub].
Defined.

(** ** Mounting *)

(** X15: on mount the editor requests a preview exactly when it was opened
    on an existing persona that has a prompt, and the request is the one for
    the inputs of the initial draft: the retrieval flag it passes agrees with
    the initial state of the "Disable Retrieval" box.  In create mode, or
    without a prompt, mounting does nothing. *)
Theorem onMount_preview (props : Props) (io : Collaborators) (e : Editor) :
  let e' := execState (onMount props io) e in
  match existingPrompt props with
  | Some _ =>
      calls e' = calls e ++ [preview_request (initialValues props)]
      /\ finalPrompt e' =
           (if ok (preview_answer io (initialValues props))
            then final_prompt_template (preview_answer io (initialValues props))
            else finalPrompt e)
      /\ values e' = values e
  | None => e' = e
  end.
Proof.
  intros e'. subst e'.
  unfold onMount, existingPrompt, initialValues, preview_request, preview_answer,
    existingPrompt.
  destruct (existingPersona props) as [persona |].
  - destruct (hd_error (Persona.prompts persona)) as [prompt |].
    + cbn [system_prompt task_prompt disable_retrieval].
      unfold triggerFinalPromptUpdate, execState. cbn.
      destruct (Persona.num_chunks persona) as [n |];
        match goal with
        | |- context [ok ?r] => destruct (ok r)
        end; repeat split.
    + destruct e; reflexivity.
  - destruct e; reflexivity.
Qed.

(** The three retrieval-only parts of the form (the citations box, the
    document sets, the retrieval customization) are shown or hidden
    together, and when the editor opens they are hidden exactly when it was
    opened on a persona whose stored chunk count is a number equal to [0]:
    in create mode, and for a persona without a chunk count, they are
    shown. *)
Theorem retrieval_sections_on_mount (props : Props) :
  (forall v : Values,
     showIncludeCitations v = showDocumentSets v
     /\ showDocumentSets v = showRetrievalCustomization v)
  /\ (showDocumentSets (initialValues props) = false <->
      exists persona n,
        existingPersona props = Some persona
        /\ Persona.num_chunks persona = Some n
        /\ Js.number_strict_eq n (Js.of_Z 0) = true).
Proof.
  split; [intros v; split; reflexivity |].
  unfold showDocumentSets, initialValues. rewrite negb_false_iff.
  destruct (existingPersona props) as [persona |]; cbn [disable_retrieval].
  - destruct (Persona.num_chunks persona) as [n |] eqn:Hstored.
    + split.
      * intros H. exists persona, n. split; [reflexivity |]. split; assumption.
      * intros (persona' & n' & Hp & Hn & Hzero). injection Hp as <-.
        rewrite Hstored in Hn. injection Hn as <-. exact Hzero.
    + split; [discriminate |]. intros (persona' & n' & Hp & Hn & _).
      injection Hp as <-. rewrite Hstored in Hn. discriminate Hn.
  - split; [discriminate |]. intros (persona' & n' & Hp & _). discriminate Hp.
Qed.

(** ** Validation followed by submission *)

Lemma validate_prompts_run (v : Values) (e : Editor) :
  runState (validate_prompts v) e =
  if ((system_prompt v =? "") && (task_prompt v =? ""))%string
  then (false,
        execState (setFinalPromptError
                     "Must provide at least one of System Prompt or Task Prompt") e)
  else (true, execState (setFinalPromptError "") e).
Proof.
  unfold validate_prompts, Schema.prepareDataForValidation,
    system_prompt_or_task_prompt.
  destruct (system_prompt v) as [| a s]; destruct (task_prompt v) as [| b t];
    reflexivity.
Qed.

(** X16: when the draft is validated and then submitted, a request is made
    exactly when the system prompt or the task prompt is non-empty, whatever
    the cross-field error was before: an error left by an earlier state of
    the draft is cleared by the validation, and empty prompts block the
    submission even if no error was set. *)
Theorem validated_submission
    (props : Props) (io : Collaborators) (v : Values) (e : Editor) :
  let checked := execState (validate_prompts v) e in
  let e' := execState (onSubmit props io v) checked in
  (system_prompt v = "" /\ task_prompt v = "" ->
     evalState (validate_prompts v) e = false
     /\ calls e' = calls e
     /\ finalPromptError e' = "Must provide at least one of System Prompt or Task Prompt")
  /\ (system_prompt v <> "" \/ task_prompt v <> "" ->
        evalState (validate_prompts v) e = true
        /\ finalPromptError e' = ""
        /\ exists rest,
             calls e' = calls e
                        ++ persistence_request props v (effective_chunks v) :: rest).
Proof.
  intros checked e'.
  pose proof (validate_prompts_run v e) as Hrun.
  split.
  - intros [Hs Ht]. rewrite Hs, Ht in Hrun. cbn [String.eqb andb] in Hrun.
    assert (Hchecked : checked = execState
              (setFinalPromptError
                 "Must provide at least one of System Prompt or Task Prompt") e).
    { subst checked. unfold execState at 1. now rewrite Hrun. }
    split; [unfold evalState; now rewrite Hrun |].
    subst e'. rewrite onSubmit_blocked_run by (rewrite Hchecked; cbn; discriminate).
    rewrite Hchecked. split; reflexivity.
  - intros Hsome.
    assert (Hguard : ((system_prompt v =? "") && (task_prompt v =? ""))%string = false).
    { apply andb_false_iff. destruct Hsome as [H | H]; [left | right];
        now apply String.eqb_neq. }
    rewrite Hguard in Hrun.
    assert (Hchecked : checked = execState (setFinalPromptError "") e).
    { subst checked. unfold execState at 1. now rewrite Hrun. }
    split; [unfold evalState; now rewrite Hrun |].
    assert (Herr : finalPromptError checked = "") by now rewrite Hchecked.
    assert (Hcalls : calls checked = calls e) by now rewrite Hchecked.
    destruct (persistence_answer io
                (persistence_request props v (effective_chunks v))) as [[p q] |] eqn:Hanswer.
    + subst e'. rewrite (onSubmit_unblocked_state props io v checked p q Herr Hanswer).
      destruct (last_error_body p q) as [[| a body] |]; cbn [calls finalPromptError];
        rewrite Herr, Hcalls; split; try reflexivity; eauto.
    + exfalso. unfold persistence_request in Hanswer.
      destruct (existingPersona props); discriminate Hanswer.
Qed.

Lemma validated_submission_witness :
  let stale := {| values := Sample.support_bot;
                  finalPrompt := Some "";
                  finalPromptError :=
                    "Must provide at least one of System Prompt or Task Prompt";
                  popup := None;
                  isSubmitting := false;
                  calls := [] |} in
  let e' := execState (onSubmit Sample.create_props Sample.all_ok Sample.support_bot)
              (execState (validate_prompts Sample.support_bot) stale) in
  finalPromptError e' = "" /\ calls e' <> [].
Proof.
  intros stale e'.
  destruct (validated_submission Sample.create_props Sample.all_ok
              Sample.support_bot stale) as (_ & Hvalid).
  destruct Hvalid as (_ & Herr & rest & Hcalls); [left; discriminate |].
  fold e' in Herr, Hcalls. split; [exact Herr |]. rewrite Hcalls. discriminate.
Defined.
